(** * Music recommender: a shallow embedding of [app.py]

    The development follows the layout of the program: the song catalog,
    the persisted profile store, the recommender, the habit tracker, the
    playlist builder, the clusterer and the two Streamlit pages that
    mutate the store ([login] and [main_app]). *)

From stdpp Require Import base decidable option list strings numbers pretty gmap.
From Stdlib Require Import ZArith Lia.

Set Warnings "-register-all".

Local Open Scope string_scope.
Local Open Scope list_scope.
Local Open Scope nat_scope.

(** ** Python values used by the program *)

(** A song of the catalog: the dict literal of [songs_dataset]. *)
Module Song.
Record t : Type := mk {
  song_name : string;
  artist : string;
  genre : string;
  mood : string;
  activity : string
}.
#[global] Instance eq_dec : EqDecision t.
Proof. solve_decision. Defined.
End Song.

(** An entry of [listening_history]: the dict literal built in
    [update_habits]. *)
Module HistoryEvent.
Record t : Type := mk {
  mood : string;
  artist : string;
  activity : string
}.
#[global] Instance eq_dec : EqDecision t.
Proof. solve_decision. Defined.
End HistoryEvent.

(** A user profile: the dict literal built on registration. *)
Module UserProfile.
Record t : Type := mk {
  favorite_mood : string;
  favorite_activity : string;
  listening_history : list HistoryEvent.t;
  playlists : list Song.t;
  likes : Z
}.
#[global] Instance eq_dec : EqDecision t.
Proof. solve_decision. Defined.

Definition set_listening_history (h : list HistoryEvent.t) (p : t) : t :=
  mk (favorite_mood p) (favorite_activity p) h (playlists p) (likes p).
Definition set_playlists (pl : list Song.t) (p : t) : t :=
  mk (favorite_mood p) (favorite_activity p) (listening_history p) pl (likes p).
Definition set_likes (n : Z) (p : t) : t :=
  mk (favorite_mood p) (favorite_activity p) (listening_history p) (playlists p) n.
End UserProfile.

(** ** Python dicts

    A dict keeps its keys in insertion order, and the program iterates
    over [users.items()], so a dict is an association list.  [dict_set]
    is [d[k] = v]: an existing key keeps its position. *)
Section dict.
Context {K V : Type} `{EqDecision K}.

Definition dict : Type := list (K * V).

Fixpoint dict_get (d : dict) (k : K) : option V :=
  match d with
  | [] => None
  | (k', v) :: d' => if decide (k' = k) then Some v else dict_get d' k
  end.

Definition dict_contains (d : dict) (k : K) : bool :=
  bool_decide (is_Some (dict_get d k)).

Fixpoint dict_set (d : dict) (k : K) (v : V) : dict :=
  match d with
  | [] => [(k, v)]
  | (k', v') :: d' =>
      if decide (k' = k) then (k', v) :: d' else (k', v') :: dict_set d' k v
  end.

Definition dict_keys (d : dict) : list K := d.*1.

(** [dict(pairs)]: later pairs overwrite earlier ones. *)
Definition dict_of_pairs (l : list (K * V)) : dict :=
  foldl (λ d kv, dict_set d kv.1 kv.2) [] l.

(** A well-formed dict holds each key once. *)
Definition dict_wf (d : dict) : Prop := NoDup (dict_keys d).
End dict.
Arguments dict : clear implicits.

(** ** Constants *)

Definition USERS_FILE : string := "user_profiles.json".

Definition songs_dataset : list Song.t := [
  Song.mk "Stronger" "Kanye West" "Hip Hop" "motivational" "gym";
  Song.mk "Blinding Lights" "The Weeknd" "Pop" "energetic" "party";
  Song.mk "Someone Like You" "Adele" "Soul" "sad" "study";
  Song.mk "Happy" "Pharrell Williams" "Pop" "happy" "party";
  Song.mk "Lose Yourself" "Eminem" "Hip Hop" "motivational" "gym";
  Song.mk "Weightless" "Marconi Union" "Ambient" "calm" "study";
  Song.mk "Viva La Vida" "Coldplay" "Alternative" "energetic" "party";
  Song.mk "Lovely" "Billie Eilish" "Pop" "sad" "study";
  Song.mk "Don't Stop Me Now" "Queen" "Rock" "happy" "party";
  Song.mk "Circles" "Post Malone" "Pop" "calm" "study"
].

(** ** Exceptions and computations over a mutable object *)

Inductive exn : Type :=
  | KeyError
  | IndexError
  | ValueError
  | RerunException.

Inductive res (A : Type) : Type :=
  | Return (a : A)
  | Raise (e : exn).
Arguments Return {A} a.
Arguments Raise {A} e.

(** [Py S A]: a Python function that receives a reference to a mutable
    object of type [S]; it leaves the object in some state and either
    returns or raises. *)
Definition Py (S A : Type) : Type := S → res A * S.

Definition py_ret {S A} (a : A) : Py S A := λ s, (Return a, s).
Definition py_bind {S A B} (m : Py S A) (k : A → Py S B) : Py S B :=
  λ s, match m s with
       | (Return a, s') => k a s'
       | (Raise e, s') => (Raise e, s')
       end.
Definition py_raise {S A} (e : exn) : Py S A := λ s, (Raise e, s).
Definition py_get {S} : Py S S := λ s, (Return s, s).
Definition py_modify {S} (f : S → S) : Py S unit := λ s, (Return tt, f s).

Declare Scope py_scope.
Delimit Scope py_scope with py.
Notation "x <- m ;; k" := (py_bind m (λ x, k))
  (at level 100, m at next level, right associativity) : py_scope.
Notation "m ;; k" := (py_bind m (λ _, k))
  (at level 100, right associativity) : py_scope.
Local Open Scope py_scope.

(** [for x in xs: body(x)] *)
Fixpoint py_for {S A} (xs : list A) (body : A → Py S unit) : Py S unit :=
  match xs with
  | [] => py_ret tt
  | x :: xs' => (body x ;; py_for xs' body)
  end.

(** ** The [random] module

    The generator is a stream of words; [randbelow rnd i n] is the result
    of the [i]-th call [_randbelow(n)] made by [random.sample], always
    below [n] for positive [n]. *)
Definition random_source : Type := nat → nat.

Definition randbelow (rnd : random_source) (i n : nat) : nat := rnd i `mod` n.

Section sample.
Context {A : Type}.

(** The selection loop of [random.sample] for a population of at most
    21 elements (the catalog has ten):
<<
    pool = list(population)
    for i in range(k):
        j = randbelow(n - i)
        result[i] = pool[j]
        pool[j] = pool[n - i - 1]
>>
    [todo] counts the iterations left; the results are listed in the
    order of [i].  An index outside the pool, which raises in Python,
    ends the loop; it does not occur for [i + todo <= n = len(pool)]. *)
Fixpoint sample_loop (rnd : random_source) (n : nat) (pool : list A)
    (i todo : nat) : list A :=
  match todo with
  | 0 => []
  | S todo' =>
      let j := randbelow rnd i (n - i) in
      match pool !! j, pool !! (n - i - 1) with
      | Some x, Some y => x :: sample_loop rnd n (<[j:=y]> pool) (S i) todo'
      | _, _ => []
      end
  end.

(** [random.sample(population, k)] *)
Definition random_sample (rnd : random_source) (population : list A)
    (k : nat) : res (list A) :=
  let n := length population in
  if bool_decide (k ≤ n) then Return (sample_loop rnd n population 0 k)
  else Raise ValueError.
End sample.

(** ** Recommender *)

Definition matching_songs (mood activity : string) : list Song.t :=
  filter (λ song, Song.mood song = mood ∧ Song.activity song = activity)
         songs_dataset.

Definition recommend_songs (rnd : random_source) (mood activity : string)
    : res (list Song.t) :=
  let matching_songs := matching_songs mood activity in
  random_sample rnd matching_songs (min 5 (length matching_songs)).

(** ** Habit tracker *)

Definition update_habits (songs : list Song.t) : Py UserProfile.t unit :=
  py_for songs (λ song,
    py_modify (λ user_profile,
      UserProfile.set_listening_history
        (UserProfile.listening_history user_profile ++
           [HistoryEvent.mk (Song.mood song) (Song.artist song) (Song.activity song)])
        user_profile)).

(** ** [collections.Counter] *)

(** [Counter(xs)]: one [mapping[elem] = mapping.get(elem, 0) + 1] per
    element, so the keys stand in first-encountered order. *)
Definition Counter (xs : list string) : dict string nat :=
  foldl (λ mapping elem, dict_set mapping elem (default 0 (dict_get mapping elem) + 1))
        [] xs.

(** [c.get(k, d)] *)
Definition counter_get (c : dict string nat) (k : string) (d : nat) : nat :=
  default d (dict_get c k).

(** [max(it, key=key)]: the first of the maximal items; [None] stands for
    the sentinel returned on an empty iterable. *)
Definition py_max {A} (key : A → nat) (it : list A) : option A :=
  match it with
  | [] => None
  | x :: it' =>
      Some (foldl (λ best y, if bool_decide (key best < key y) then y else best) x it')
  end.

(** [c.most_common(1)], which is [heapq.nlargest(1, c.items(), key=itemgetter(1))]:
    for one item this is [max] over the items. *)
Definition most_common_1 (c : dict string nat) : list (string * nat) :=
  match py_max snd c with
  | None => []
  | Some result => [result]
  end.

(** ** Playlist builder *)

Definition create_personalized_playlist : Py UserProfile.t (list Song.t) :=
  user_profile <- py_get ;;
  let history := UserProfile.listening_history user_profile in
  if bool_decide (history = []) then py_ret []
  else
    let mood_counter := Counter (HistoryEvent.mood <$> history) in
    match most_common_1 mood_counter with
    | [] => py_raise IndexError
    | (favorite_mood, _) :: _ =>
        let playlist := filter (λ song, Song.mood song = favorite_mood) songs_dataset in
        py_ret (take 10 playlist)
    end.

(** ** Clusterer *)

(** The feature list built in the loop body of [cluster_users]. *)
Definition feature (profile : UserProfile.t) : list nat :=
  let mood_count := Counter (HistoryEvent.mood <$> UserProfile.listening_history profile) in
  let activity_count :=
    Counter (HistoryEvent.activity <$> UserProfile.listening_history profile) in
  [ counter_get mood_count "happy" 0;
    counter_get mood_count "sad" 0;
    counter_get mood_count "energetic" 0;
    counter_get mood_count "calm" 0;
    counter_get mood_count "motivational" 0;
    counter_get activity_count "gym" 0;
    counter_get activity_count "study" 0;
    counter_get activity_count "party" 0 ].

(** The two lists filled by the loop over [users.items()]. *)
Definition cluster_inputs (users : dict string UserProfile.t)
    : list (list nat) * list string :=
  foldl (λ acc item,
           let '(features, usernames) := acc in
           let '(username, profile) := item in
           (features ++ [feature profile], usernames ++ [username]))
        ([], []) users.

(** [KMeans(n_clusters=k).fit_predict(X)] is scikit-learn's; one run of
    it is a function from the number of clusters and the rows to the
    labels. *)
Definition kmeans : Type := nat → list (list nat) → list nat.

Definition cluster_users (fit_predict : kmeans)
    : Py (dict string UserProfile.t) (list (string * nat)) :=
  users <- py_get ;;
  if bool_decide (length users < 2) then py_ret []
  else
    let '(features, usernames) := cluster_inputs users in
    let labels := fit_predict (min 2 (length users)) features in
    py_ret (zip usernames labels).

(** ** The persisted format

    The file [USERS_FILE] holds one JSON document.  [json.dump] writes
    the document of a Python value and [json.load] reads it back as
    nested dicts and lists; a file is modelled by the document it holds
    and the working directory by a map from paths to documents. *)

Inductive json : Type :=
  | JNull
  | JBool (b : bool)
  | JInt (n : Z)
  | JString (s : string)
  | JArray (items : list json)
  | JObject (members : list (string * json)).

(** The documents [json.dump] writes for the values of the store, with
    the keys in the order of the dict literals that built them. *)
Definition song_to_json (song : Song.t) : json :=
  JObject [ ("song_name", JString (Song.song_name song));
            ("artist", JString (Song.artist song));
            ("genre", JString (Song.genre song));
            ("mood", JString (Song.mood song));
            ("activity", JString (Song.activity song)) ].

Definition event_to_json (h : HistoryEvent.t) : json :=
  JObject [ ("mood", JString (HistoryEvent.mood h));
            ("artist", JString (HistoryEvent.artist h));
            ("activity", JString (HistoryEvent.activity h)) ].

Definition profile_to_json (p : UserProfile.t) : json :=
  JObject [ ("favorite_mood", JString (UserProfile.favorite_mood p));
            ("favorite_activity", JString (UserProfile.favorite_activity p));
            ("listening_history", JArray (event_to_json <$> UserProfile.listening_history p));
            ("playlists", JArray (song_to_json <$> UserProfile.playlists p));
            ("likes", JInt (UserProfile.likes p)) ].

Definition users_to_json (users : dict string UserProfile.t) : json :=
  JObject (prod_map id profile_to_json <$> users).

(** Reading a loaded document as the values of the store.  A JSON object
    is loaded as [dict(members)]. *)
Definition json_string (j : json) : option string :=
  match j with JString s => Some s | _ => None end.

Definition json_int (j : json) : option Z :=
  match j with JInt n => Some n | _ => None end.

Definition json_array (j : json) : option (list json) :=
  match j with JArray items => Some items | _ => None end.

Definition json_object (j : json) : option (dict string json) :=
  match j with JObject members => Some (dict_of_pairs members) | _ => None end.

Definition song_of_json (j : json) : option Song.t :=
  d ← json_object j;
  song_name ← dict_get d "song_name" ≫= json_string;
  artist ← dict_get d "artist" ≫= json_string;
  genre ← dict_get d "genre" ≫= json_string;
  mood ← dict_get d "mood" ≫= json_string;
  activity ← dict_get d "activity" ≫= json_string;
  Some (Song.mk song_name artist genre mood activity).

Definition event_of_json (j : json) : option HistoryEvent.t :=
  d ← json_object j;
  mood ← dict_get d "mood" ≫= json_string;
  artist ← dict_get d "artist" ≫= json_string;
  activity ← dict_get d "activity" ≫= json_string;
  Some (HistoryEvent.mk mood artist activity).

Definition profile_of_json (j : json) : option UserProfile.t :=
  d ← json_object j;
  favorite_mood ← dict_get d "favorite_mood" ≫= json_string;
  favorite_activity ← dict_get d "favorite_activity" ≫= json_string;
  history_items ← dict_get d "listening_history" ≫= json_array;
  listening_history ← mapM event_of_json history_items;
  playlist_items ← dict_get d "playlists" ≫= json_array;
  playlists ← mapM song_of_json playlist_items;
  likes ← dict_get d "likes" ≫= json_int;
  Some (UserProfile.mk favorite_mood favorite_activity listening_history playlists likes).

Definition users_of_json (j : json) : option (dict string UserProfile.t) :=
  d ← json_object j;
  mapM (λ item, profile ← profile_of_json item.2; Some (item.1, profile)) d.

(** ** The Streamlit session *)

(** What the script has drawn on the page. *)
Inductive st_call : Type :=
  | st_title (body : string)
  | st_sidebar_title (body : string)
  | st_header (body : string)
  | st_write (body : string)
  | st_success (body : string)
  | st_error (body : string)
  | st_warning (body : string)
  | st_expander (label : string).

Record world : Type := World {
  files : gmap string json;           (* working directory: path to document *)
  session_username : option string;   (* st.session_state.username *)
  users : dict string UserProfile.t;  (* the module-level dict *)
  page : list st_call
}.

Definition set_files (fs : gmap string json) (w : world) : world :=
  World fs (session_username w) (users w) (page w).
Definition set_session_username (u : option string) (w : world) : world :=
  World (files w) u (users w) (page w).
Definition set_users (us : dict string UserProfile.t) (w : world) : world :=
  World (files w) (session_username w) us (page w).
Definition set_page (p : list st_call) (w : world) : world :=
  World (files w) (session_username w) (users w) p.

(** The widget values of one run of the script. *)
Inductive login_choice : Type := Login | Register.

Inductive menu : Type :=
  | Home
  | GetRecommendations
  | MyPlaylist
  | PublicPlaylists
  | ClusterUsers
  | Feedback
  | Logout.

Record widgets : Type := Widgets {
  w_login_choice : login_choice;   (* st.radio("Choose Action", ...) *)
  w_text_input : string;           (* st.text_input(...) *)
  w_button : string → bool;        (* st.button(label): pressed in this run *)
  w_menu : menu;                   (* st.sidebar.radio("Menu", ...) *)
  w_mood : string;                 (* st.selectbox("Select Mood", ...) *)
  w_activity : string              (* st.selectbox("Select Activity", ...) *)
}.

Definition st (c : st_call) : Py world unit :=
  py_modify (λ w, set_page (page w ++ [c]) w).

Definition py_lift {S A} (r : res A) : Py S A := λ s, (r, s).

(** Truth value of a list. *)
Definition py_bool {A} (l : list A) : bool :=
  match l with [] => false | _ :: _ => true end.

(** [m] run on the object stored under [k]: a mutation made by [m] is
    seen through the dict, as with [f(d[k])].  The key is the session
    user name, which may be [None]; [None] is the key of no profile. *)
Definition at_key {V A} (k : option string) (m : Py V A) : Py (dict string V) A :=
  λ d, match k with
       | None => (Raise KeyError, d)
       | Some key =>
           match dict_get d key with
           | None => (Raise KeyError, d)
           | Some v => let '(r, v') := m v in (r, dict_set d key v')
           end
       end.

(** [m] run on the global [users]. *)
Definition on_users {A} (m : Py (dict string UserProfile.t) A) : Py world A :=
  λ w, let '(r, us) := m (users w) in (r, set_users us w).

(** ** Utility functions on the file *)

Definition load_users : Py world (dict string UserProfile.t) :=
  w <- py_get ;;
  match files w !! USERS_FILE with
  | Some document =>
      match users_of_json document with
      | Some loaded => py_ret loaded
      | None => py_raise ValueError   (* not a document of a profile store *)
      end
  | None => py_ret []
  end.

Definition save_users (users : dict string UserProfile.t) : Py world unit :=
  py_modify (λ w, set_files (<[USERS_FILE := users_to_json users]> (files w)) w).

(** ** The pages *)

(** [str(x)] of the session user name inside an f-string. *)
Definition str_username (u : option string) : string := default "None" u.

Definition song_line (song : Song.t) : string :=
  "- **" +:+ Song.song_name song +:+ "** by *" +:+ Song.artist song +:+ "*".

Definition login (ws : widgets) : Py world unit :=
  st (st_title "Login or Register") ;;
  match w_login_choice ws with
  | Login =>
      let username := w_text_input ws in
      if w_button ws "Login" then
        w <- py_get ;;
        if dict_contains (users w) username then
          py_modify (set_session_username (Some username)) ;;
          st (st_success ("Welcome back " +:+ username +:+ "!")) ;;
          py_raise RerunException
        else st (st_error "Username not found.")
      else py_ret tt
  | Register =>
      let new_username := w_text_input ws in
      if w_button ws "Register" then
        w <- py_get ;;
        if dict_contains (users w) new_username then
          st (st_error "Username already exists.")
        else
          on_users (py_modify (λ users,
            dict_set users new_username (UserProfile.mk "" "" [] [] 0))) ;;
          w <- py_get ;;
          save_users (users w) ;;
          py_modify (set_session_username (Some new_username)) ;;
          st (st_success "Registration successful!") ;;
          py_raise RerunException
      else py_ret tt
  end.

Definition main_app (ws : widgets) (rnd : random_source) (fit_predict : kmeans)
    : Py world unit :=
  w <- py_get ;;
  let me := session_username w in
  st (st_sidebar_title ("Welcome, " +:+ str_username me +:+ "!")) ;;
  match w_menu ws with
  | Home =>
      st (st_title "Music Recommendation System") ;;
      st (st_write "Get the best song suggestions based on your mood and activity!")
  | GetRecommendations =>
      st (st_header "Get Song Recommendations") ;;
      let mood := w_mood ws in
      let activity := w_activity ws in
      if w_button ws "Recommend Songs" then
        recs <- py_lift (recommend_songs rnd mood activity) ;;
        if py_bool recs then
          st (st_success "Recommended Songs:") ;;
          py_for recs (λ song, st (st_write (song_line song))) ;;
          on_users (at_key me (update_habits recs)) ;;
          w <- py_get ;;
          save_users (users w)
        else st (st_warning "No matching songs found.")
      else py_ret tt
  | MyPlaylist =>
      st (st_header "Your Personalized Playlist") ;;
      playlist <- on_users (at_key me create_personalized_playlist) ;;
      if py_bool playlist then
        on_users (at_key me (py_modify (UserProfile.set_playlists playlist))) ;;
        w <- py_get ;;
        save_users (users w) ;;
        py_for playlist (λ song, st (st_write (song_line song)))
      else st (st_warning "Not enough listening history yet.")
  | PublicPlaylists =>
      st (st_header "Public Playlists") ;;
      py_for (dict_keys (users w)) (λ user,
        profile <- on_users (at_key (Some user) py_get) ;;
        if bool_decide (Some user ≠ me) && py_bool (UserProfile.playlists profile) then
          st (st_expander ("User: " +:+ user +:+ " (Likes: "
                            +:+ pretty (UserProfile.likes profile) +:+ ")")) ;;
          py_for (UserProfile.playlists profile) (λ song, st (st_write (song_line song))) ;;
          if w_button ws ("Like " +:+ user +:+ "'s playlist") then
            on_users (at_key (Some user) (py_modify (λ p,
              UserProfile.set_likes (UserProfile.likes p + 1)%Z p))) ;;
            w <- py_get ;;
            save_users (users w) ;;
            st (st_success "Liked!")
          else py_ret tt
        else py_ret tt)
  | ClusterUsers =>
      st (st_header "User Clustering") ;;
      cluster_result <- on_users (cluster_users fit_predict) ;;
      if py_bool cluster_result then
        py_for cluster_result (λ '(username, cluster_id),
          st (st_write ("**" +:+ username +:+ "** is in Cluster **"
                         +:+ pretty cluster_id +:+ "**")))
      else st (st_warning "Not enough users to cluster.")
  | Feedback =>
      st (st_header "Feedback") ;;
      if w_button ws "Submit Feedback" then st (st_success "Thanks for your feedback!")
      else py_ret tt
  | Logout =>
      py_modify (set_session_username None) ;;
      py_raise RerunException
  end.

(** One run of the script: the module-level statements, then the routing. *)
Definition app (ws : widgets) (rnd : random_source) (fit_predict : kmeans)
    : Py world unit :=
  loaded <- load_users ;;
  py_modify (set_users loaded) ;;
  w <- py_get ;;
  if bool_decide (session_username w ≠ None ∧ session_username w ≠ Some "")
  then main_app ws rnd fit_predict
  else login ws.

(** ** Notions used to state the properties *)

(** [t] is a sample without replacement of size [k] from [pool]: [k]
    entries of [pool], no entry taken twice. *)
Definition is_sample {A} (k : nat) (pool t : list A) : Prop :=
  length t = k ∧ NoDup t ∧ ∀ x, x ∈ t → x ∈ pool.

(** The history event recorded for a song. *)
Definition event_of_song (song : Song.t) : HistoryEvent.t :=
  HistoryEvent.mk (Song.mood song) (Song.artist song) (Song.activity song).

(** Number of occurrences of [x] in [l]. *)
Definition count (x : string) (l : list string) : nat :=
  length (filter (λ y, y = x) l).

(** Position of the first occurrence of [x] in [l] ([length l] when
    there is none). *)
Fixpoint first_index (x : string) (l : list string) : nat :=
  match l with
  | [] => 0
  | y :: l' => if decide (y = x) then 0 else S (first_index x l')
  end.

(** [f] is the favorite mood of a history with moods [moods]: a mood of
    the history that no mood outnumbers, met first among the moods that
    occur as often. *)
Definition is_favorite_mood (f : string) (moods : list string) : Prop :=
  f ∈ moods
  ∧ (∀ m, count m moods ≤ count f moods)
  ∧ (∀ m, m ≠ f → count m moods = count f moods →
       first_index f moods < first_index m moods).

(** The moods and activities the clusterer counts, in the order of the
    dimensions. *)
Definition mood_enumeration : list string :=
  ["happy"; "sad"; "energetic"; "calm"; "motivational"].
Definition activity_enumeration : list string := ["gym"; "study"; "party"].

(** The count vector of the moods and the activities of a history: per
    enumerated mood the number of events with that mood, then per
    enumerated activity the number of events with that activity. *)
Definition count_vector (moods activities : list string) : list nat :=
  ((λ m, count m moods) <$> mood_enumeration)
  ++ ((λ a, count a activities) <$> activity_enumeration).

Definition feature_vector (history : list HistoryEvent.t) : list nat :=
  count_vector (HistoryEvent.mood <$> history) (HistoryEvent.activity <$> history).


(** What scikit-learn promises of [fit_predict] when there are at least
    as many rows as clusters: one label per row, each below the number of
    clusters. *)
Definition kmeans_contract (fit_predict : kmeans) : Prop :=
  ∀ k X, 0 < k ≤ length X →
    length (fit_predict k X) = length X
    ∧ Forall (λ label, label < k) (fit_predict k X).

(** A labelling that meets the contract: the parity of the row sum. *)
Definition parity_kmeans : kmeans :=
  λ k X, (λ row, foldr Nat.add 0 row `mod` k) <$> X.

(** The profile created on registration. *)
Definition new_profile : UserProfile.t := UserProfile.mk "" "" [] [] 0.

(** The store is persisted: the file holds the document of [users]. *)
Definition persisted (w : world) : Prop :=
  files w !! USERS_FILE = Some (users_to_json (users w)).

(** "After the My Playlist page has run, the stored playlists field of
    the logged-in user is the builder's result for the profile, and the
    store is persisted." *)
Definition my_playlist_overwritten (ws : widgets) (rnd : random_source)
    (fit_predict : kmeans) (w : world) : Prop :=
  ∀ username profile,
    session_username w = Some username →
    dict_get (users w) username = Some profile →
    w_menu ws = MyPlaylist →
    ∃ w' playlist,
      main_app ws rnd fit_predict w = (Return tt, w')
      ∧ create_personalized_playlist profile = (Return playlist, profile)
      ∧ UserProfile.playlists <$> dict_get (users w') username = Some playlist
      ∧ persisted w'.

(** ** Sample inputs *)

Definition stronger : Song.t :=
  Song.mk "Stronger" "Kanye West" "Hip Hop" "motivational" "gym".

(** A store file in which a user has a playlist and no history. *)
Definition stale_users : dict string UserProfile.t :=
  [("ann", UserProfile.mk "" "" [] [stronger] 0)].

Definition stale_world : world :=
  World {[USERS_FILE := users_to_json stale_users]} (Some "ann") stale_users [].

(** A store with two users who have listened to songs. *)
Definition sample_users : dict string UserProfile.t :=
  [ ("ann", UserProfile.mk "" "" [event_of_song stronger] [stronger] 2);
    ("bob", UserProfile.mk "" ""
              [ HistoryEvent.mk "happy" "Queen" "party";
                HistoryEvent.mk "angry" "Metallica" "driving";
                HistoryEvent.mk "calm" "Enya" "driving" ] [] 0) ].

Definition sample_world : world :=
  World {[USERS_FILE := users_to_json sample_users]} (Some "ann") sample_users [].

Definition sample_widgets (choice : login_choice) (text : string) (m : menu) : widgets :=
  Widgets choice text (λ _, true) m "motivational" "gym".

(** ** Notions for the pages and the store *)

(** [f] occurs in [moods] more often than every other mood. *)
Definition strict_favorite (f : string) (moods : list string) : Prop :=
  f ∈ moods ∧ ∀ m, m ≠ f → count m moods < count f moods.

(** An event recorded for a song of the catalog. *)
Definition from_catalog (h : HistoryEvent.t) : Prop :=
  h ∈ event_of_song <$> songs_dataset.

(** What the pages may do to a profile: extend its history, replace its
    playlists, raise its likes. *)
Definition profile_grows (p p' : UserProfile.t) : Prop :=
  UserProfile.favorite_mood p' = UserProfile.favorite_mood p
  ∧ UserProfile.favorite_activity p' = UserProfile.favorite_activity p
  ∧ UserProfile.listening_history p `prefix_of` UserProfile.listening_history p'
  ∧ (UserProfile.likes p ≤ UserProfile.likes p')%Z.

(** What the pages may do to the store: every user stays, with a profile
    that has grown, and a user who was not there starts from the profile
    of a registration. *)
Definition store_grows (us us' : dict string UserProfile.t) : Prop :=
  ∀ u,
    match dict_get us u, dict_get us' u with
    | Some p, Some p' => profile_grows p p'
    | Some _, None => False
    | None, Some p' => profile_grows new_profile p'
    | None, None => True
    end.

(** The store in memory is the one a fresh run would load: its user
    names are distinct and [load_users] returns it. *)
Definition in_sync (w : world) : Prop :=
  dict_wf (users w) ∧ load_users w = (Return (users w), w).

(** The file is absent or holds the document of some store. *)
Definition loadable (w : world) : Prop :=
  match files w !! USERS_FILE with
  | Some document => is_Some (users_of_json document)
  | None => True
  end.

(** The label of the Like button under [user]'s playlist. *)
Definition like_label (user : string) : string := "Like " +:+ user +:+ "'s playlist".

(** The Like button under [user]'s playlist is shown to [me] and pressed:
    the playlist is another user's and is not empty. *)
Definition liked (ws : widgets) (me : option string) (item : string * UserProfile.t) : bool :=
  bool_decide (Some item.1 ≠ me) && py_bool (UserProfile.playlists item.2)
  && w_button ws (like_label item.1).

Definition like_update (ws : widgets) (me : option string)
    (item : string * UserProfile.t) : string * UserProfile.t :=
  if liked ws me item
  then (item.1, UserProfile.set_likes (UserProfile.likes item.2 + 1)%Z item.2)
  else item.

(** The body of the loop of the Public Playlists page. *)
Definition public_playlists_entry (ws : widgets) (me : option string) (user : string)
    : Py world unit :=
  profile <- on_users (at_key (Some user) py_get) ;;
  if bool_decide (Some user ≠ me) && py_bool (UserProfile.playlists profile) then
    st (st_expander ("User: " +:+ user +:+ " (Likes: "
                      +:+ pretty (UserProfile.likes profile) +:+ ")")) ;;
    py_for (UserProfile.playlists profile) (λ song, st (st_write (song_line song))) ;;
    if w_button ws ("Like " +:+ user +:+ "'s playlist") then
      on_users (at_key (Some user) (py_modify (λ p,
        UserProfile.set_likes (UserProfile.likes p + 1)%Z p))) ;;
      w <- py_get ;;
      save_users (users w) ;;
      st (st_success "Liked!")
    else py_ret tt
  else py_ret tt.

(** One page run either keeps store and file, or leaves a grown store
    and the file that holds its document. *)
Definition store_step (w w' : world) : Prop :=
  (users w' = users w ∧ files w' = files w)
  ∨ (store_grows (users w) (users w')
     ∧ (dict_wf (users w) → dict_wf (users w'))
     ∧ files w' = <[USERS_FILE := users_to_json (users w')]> (files w)).

(* ================================================================= *)
(** * Properties *)

(** ** The computation monad *)

Lemma py_for_app {S A} (xs ys : list A) (body : A → Py S unit) (s : S) :
  py_for (xs ++ ys) body s = (py_for xs body ;; py_for ys body) s.
Proof.
  revert s. induction xs as [|x xs IH]; intros s; cbn; [done|].
  unfold py_bind. destruct (body x s) as [[[]|e] s']; [|done].
  rewrite IH. done.
Qed.

(** ** [random.sample] *)

Section sample_facts.
Context {A : Type}.
Implicit Types (pool t : list A) (rnd : random_source).

Lemma randbelow_lt rnd i n : 0 < n → randbelow rnd i n < n.
Proof. intros. unfold randbelow. apply Nat.mod_upper_bound. lia. Qed.

(** One iteration: the entry drawn leaves the live prefix of the pool. *)
Lemma pool_step_perm pool m j x y :
  pool !! j = Some x → pool !! m = Some y → j ≤ m →
  take (S m) pool ≡ₚ x :: take m (<[j:=y]> pool).
Proof.
  intros Hj Hm Hle. rewrite (take_S_r _ _ _ Hm).
  destruct (decide (j = m)) as [->|Hne].
  - rewrite take_insert_ge by lia. simplify_eq.
    by rewrite Permutation_app_comm.
  - rewrite take_insert_lt by lia.
    assert (Hj' : take m pool !! j = Some x) by (rewrite lookup_take_lt; [done|lia]).
    rewrite insert_take_drop by (apply lookup_lt_Some in Hj'; done).
    rewrite <- (take_drop_middle _ _ _ Hj') at 1.
    rewrite <- app_assoc. cbn.
    rewrite Permutation_app_comm. cbn. f_equiv.
    rewrite Permutation_app_comm. f_equiv.
    apply Permutation_app_comm.
Qed.

Lemma sample_loop_step rnd n pool i todo :
  length pool = n → i < n →
  ∃ x y, pool !! randbelow rnd i (n - i) = Some x ∧ pool !! (n - i - 1) = Some y ∧
    sample_loop rnd n pool i (S todo)
      = x :: sample_loop rnd n (<[randbelow rnd i (n - i) := y]> pool) (S i) todo.
Proof.
  intros Hlen Hi.
  pose proof (randbelow_lt rnd i (n - i)) as Hj.
  destruct (lookup_lt_is_Some_2 pool (randbelow rnd i (n - i))) as [x Hx]; [lia|].
  destruct (lookup_lt_is_Some_2 pool (n - i - 1)) as [y Hy]; [lia|].
  exists x, y. cbn. rewrite Hx, Hy. done.
Qed.

Lemma sample_loop_length rnd n pool i todo :
  length pool = n → i + todo ≤ n →
  length (sample_loop rnd n pool i todo) = todo.
Proof.
  revert pool i. induction todo as [|todo IH]; intros pool i Hlen Hle; [done|].
  destruct (sample_loop_step rnd n pool i todo) as (x & y & _ & _ & ->); [done|lia|].
  cbn. rewrite IH; [done| |lia]. by rewrite length_insert.
Qed.

(** The results and what is left of the live prefix make up the live
    prefix the loop started from. *)
Lemma sample_loop_perm rnd n pool i todo :
  length pool = n → i + todo ≤ n →
  ∃ rest, take (n - i) pool ≡ₚ sample_loop rnd n pool i todo ++ rest.
Proof.
  revert pool i. induction todo as [|todo IH]; intros pool i Hlen Hle.
  { by exists (take (n - i) pool). }
  destruct (sample_loop_step rnd n pool i todo) as (x & y & Hx & Hy & ->); [done|lia|].
  pose proof (randbelow_lt rnd i (n - i)) as Hj.
  destruct (IH (<[randbelow rnd i (n - i) := y]> pool) (S i)) as [rest Hrest];
    [by rewrite length_insert|lia|].
  exists rest. cbn. rewrite <- Hrest.
  replace (n - i) with (S (n - i - 1)) at 1 by lia.
  replace (n - S i) with (n - i - 1) by lia.
  apply pool_step_perm; [done..|lia].
Qed.

Lemma sample_loop_is_sample rnd pool k :
  NoDup pool → k ≤ length pool →
  is_sample k pool (sample_loop rnd (length pool) pool 0 k).
Proof.
  intros Hnd Hk. split; [by apply sample_loop_length; [|lia]|].
  destruct (sample_loop_perm rnd (length pool) pool 0 k) as [rest Hrest]; [done|lia|].
  rewrite Nat.sub_0_r, firstn_all in Hrest. split.
  - rewrite Hrest in Hnd. by apply NoDup_app in Hnd as [? _].
  - intros x Hx. rewrite Hrest. apply elem_of_app. by left.
Qed.

(** The loop reads the generator from its [i]-th word on. *)
Lemma sample_loop_ext rnd rnd' n pool i todo :
  (∀ m, i ≤ m → rnd m = rnd' m) →
  sample_loop rnd n pool i todo = sample_loop rnd' n pool i todo.
Proof.
  revert pool i. induction todo as [|todo IH]; intros pool i Hext; [done|].
  cbn. unfold randbelow. rewrite <- (Hext i) by lia.
  repeat case_match; try done. f_equal. apply IH. intros m Hm. apply Hext. lia.
Qed.

(** Every arrangement of [todo] live entries is the result for some
    generator. *)
Lemma sample_loop_complete n pool i todo t :
  length pool = n → i + todo ≤ n →
  length t = todo → NoDup t → (∀ x, x ∈ t → x ∈ take (n - i) pool) →
  ∃ rnd, sample_loop rnd n pool i todo = t.
Proof.
  revert pool i t. induction todo as [|todo IH]; intros pool i t Hlen Hle Ht Hnd Hin.
  { exists (λ _, 0). by destruct t. }
  destruct t as [|x t]; [done|]. cbn in Ht.
  apply NoDup_cons in Hnd as [Hx Hnd].
  destruct (proj1 (list_elem_of_lookup _ _) (Hin x ltac:(left))) as [j Hj].
  apply lookup_take_Some in Hj as [Hj Hlt].
  destruct (lookup_lt_is_Some_2 pool (n - i - 1)) as [y Hy]; [lia|].
  destruct (IH (<[j:=y]> pool) (S i) t) as [rnd' Hrnd'];
    [by rewrite length_insert|lia|lia|done| |].
  { intros z Hz.
    assert (Hperm : take (S (n - i - 1)) pool ≡ₚ x :: take (n - i - 1) (<[j:=y]> pool))
      by (apply pool_step_perm; [done..|lia]).
    replace (n - S i) with (n - i - 1) by lia.
    specialize (Hin z ltac:(by right)).
    replace (n - i) with (S (n - i - 1)) in Hin by lia.
    rewrite Hperm in Hin. apply elem_of_cons in Hin as [->|]; done. }
  exists (λ m, if decide (m = i) then j else rnd' m).
  assert (Hdraw : randbelow (λ m, if decide (m = i) then j else rnd' m) i (n - i) = j).
  { unfold randbelow. rewrite decide_True by done. apply Nat.mod_small. lia. }
  cbn. rewrite Hdraw, Hj, Hy. f_equal. rewrite <- Hrnd'.
  apply sample_loop_ext. intros m Hm. rewrite decide_False by lia. done.
Qed.

(** Two generators that give the same result made the same draws. *)
Lemma sample_loop_draws rnd rnd' n pool i todo :
  length pool = n → i + todo ≤ n → NoDup (take (n - i) pool) →
  sample_loop rnd n pool i todo = sample_loop rnd' n pool i todo →
  ∀ m, i ≤ m < i + todo → randbelow rnd m (n - m) = randbelow rnd' m (n - m).
Proof.
  revert pool i. induction todo as [|todo IH]; intros pool i Hlen Hle Hnd Heq m Hm; [lia|].
  destruct (sample_loop_step rnd n pool i todo) as (x & y & Hx & Hy & E); [done|lia|].
  destruct (sample_loop_step rnd' n pool i todo) as (x' & y' & Hx' & Hy' & E'); [done|lia|].
  rewrite E, E' in Heq. injection Heq as <- Htl.
  assert (y' = y) as -> by congruence.
  pose proof (randbelow_lt rnd i (n - i)) as Hj.
  pose proof (randbelow_lt rnd' i (n - i)) as Hj'.
  assert (Hsame : randbelow rnd i (n - i) = randbelow rnd' i (n - i)).
  { eapply (NoDup_lookup _ _ _ _ Hnd); rewrite lookup_take_lt; [done|lia|done|lia]. }
  destruct (decide (m = i)) as [->|Hne]; [done|].
  rewrite <- Hsame in Htl.
  eapply (IH (<[randbelow rnd i (n - i) := y]> pool) (S i));
    [by rewrite length_insert|lia| |done|lia].
  assert (Hperm : take (S (n - i - 1)) pool
            ≡ₚ x :: take (n - i - 1) (<[randbelow rnd i (n - i) := y]> pool))
    by (apply pool_step_perm; [done..|lia]).
  replace (n - S i) with (n - i - 1) by lia.
  replace (n - i) with (S (n - i - 1)) in Hnd by lia.
  rewrite Hperm in Hnd. by apply NoDup_cons in Hnd as [_ ?].
Qed.

End sample_facts.

(** ** Recommender *)

Lemma NoDup_songs_dataset : NoDup songs_dataset.
Proof. apply (bool_decide_unpack _). by vm_compute. Qed.

Lemma elem_of_matching_songs mood activity song :
  song ∈ matching_songs mood activity ↔
  song ∈ songs_dataset ∧ Song.mood song = mood ∧ Song.activity song = activity.
Proof. unfold matching_songs. rewrite list_elem_of_filter. tauto. Qed.

Lemma NoDup_matching_songs mood activity : NoDup (matching_songs mood activity).
Proof. apply NoDup_filter, NoDup_songs_dataset. Qed.

(** The size asked for never exceeds the population, so [random.sample]
    does not raise. *)
Lemma recommend_songs_returns rnd mood activity :
  recommend_songs rnd mood activity
  = Return (sample_loop rnd (length (matching_songs mood activity))
              (matching_songs mood activity) 0
              (min 5 (length (matching_songs mood activity)))).
Proof.
  unfold recommend_songs, random_sample. rewrite bool_decide_eq_true_2; [done|lia].
Qed.

(** Each (mood, activity) pair of the catalog has at most two songs. *)
Lemma catalog_pairs_at_most_two :
  Forall (λ song, length (matching_songs (Song.mood song) (Song.activity song)) ≤ 2)
         songs_dataset.
Proof. apply (bool_decide_unpack _). by vm_compute. Qed.

Lemma matching_songs_at_most_two mood activity :
  length (matching_songs mood activity) ≤ 2.
Proof.
  destruct (matching_songs mood activity) as [|song rest] eqn:E; [cbn; lia|].
  assert (Hin : song ∈ matching_songs mood activity) by (rewrite E; left).
  apply elem_of_matching_songs in Hin as (Hcat & <- & <-).
  rewrite <- E. clear E. revert song Hcat. apply Forall_forall, catalog_pairs_at_most_two.
Qed.

(** C1. For every mood and activity, [recommend_songs] samples without
    replacement from exactly the catalog entries whose mood and activity
    equal the inputs: whatever the generator yields, the result has
    [min(5, matches)] entries, all distinct, all among the matches; each
    such arrangement of matches is produced by exactly one vector of
    draws [randbelow(n - i)], so uniform draws give a uniform sample; and
    without a match the result is empty. *)
Theorem recommend_songs_uniform_sample (mood activity : string) :
  let matches := matching_songs mood activity in
  let k := min 5 (length matches) in
  (∀ song, song ∈ matches ↔
     song ∈ songs_dataset ∧ Song.mood song = mood ∧ Song.activity song = activity)
  ∧ NoDup matches
  ∧ (∀ rnd, ∃ recs,
       recommend_songs rnd mood activity = Return recs ∧ is_sample k matches recs)
  ∧ (∀ t, is_sample k matches t →
       ∃ rnd, recommend_songs rnd mood activity = Return t ∧
         ∀ rnd', recommend_songs rnd' mood activity = Return t →
           ∀ i, i < k →
             randbelow rnd' i (length matches - i) = randbelow rnd i (length matches - i))
  ∧ (matches = [] → ∀ rnd, recommend_songs rnd mood activity = Return []).
Proof.
  intros matches k.
  pose proof (NoDup_matching_songs mood activity) as Hnd. fold matches in Hnd.
  split; [apply elem_of_matching_songs|]. split; [done|].
  split; [|split].
  - intros rnd. eexists. split; [apply recommend_songs_returns|].
    apply sample_loop_is_sample; [done|]. subst k matches. lia.
  - intros t (Hlen & Hndt & Hin).
    destruct (sample_loop_complete (length matches) matches 0 k t) as [rnd Hrnd];
      [done|subst k; lia|done|done| |].
    { intros x Hx. rewrite Nat.sub_0_r, firstn_all. by apply Hin. }
    exists rnd. split; [by rewrite recommend_songs_returns; fold matches k; rewrite Hrnd|].
    intros rnd' Hrnd' i Hi. rewrite recommend_songs_returns in Hrnd'.
    fold matches k in Hrnd'. injection Hrnd' as Hrnd'.
    apply (sample_loop_draws rnd' rnd (length matches) matches 0 k);
      [done|subst k; lia| |congruence|lia].
    by rewrite Nat.sub_0_r, firstn_all.
  - intros Hnil rnd. rewrite recommend_songs_returns. fold matches. by rewrite Hnil.
Qed.

(** C9. With the catalog of the program every (mood, activity) pair has
    at most two matches, so the cap of five is never reached and
    [recommend_songs] returns every match, at most two songs. *)
Theorem recommend_songs_at_most_two (rnd : random_source) (mood activity : string) :
  length (matching_songs mood activity) ≤ 2
  ∧ ¬ 5 ≤ length (matching_songs mood activity)
  ∧ min 5 (length (matching_songs mood activity)) = length (matching_songs mood activity)
  ∧ ∃ recs, recommend_songs rnd mood activity = Return recs
      ∧ length recs = length (matching_songs mood activity)
      ∧ length recs ≤ 2.
Proof.
  pose proof (matching_songs_at_most_two mood activity) as Hle.
  split; [done|]. split; [lia|]. split; [lia|].
  eexists. split; [apply recommend_songs_returns|].
  rewrite sample_loop_length; [lia|done|lia].
Qed.

(** The motivational gym songs of the catalog are recommended together,
    in the order the draws decide; moods are compared with their case. *)
Example recommend_motivational_gym :
  recommend_songs (λ _, 0) "motivational" "gym"
    = Return [ Song.mk "Stronger" "Kanye West" "Hip Hop" "motivational" "gym";
               Song.mk "Lose Yourself" "Eminem" "Hip Hop" "motivational" "gym" ]
  ∧ recommend_songs (λ _, 1) "motivational" "gym"
    = Return [ Song.mk "Lose Yourself" "Eminem" "Hip Hop" "motivational" "gym";
               Song.mk "Stronger" "Kanye West" "Hip Hop" "motivational" "gym" ]
  ∧ recommend_songs (λ _, 0) "Motivational" "gym" = Return [].
Proof. by vm_compute. Qed.

(** ** Habit tracker *)

Lemma update_habits_run songs user_profile :
  update_habits songs user_profile
  = (Return tt,
     UserProfile.set_listening_history
       (UserProfile.listening_history user_profile ++ (event_of_song <$> songs))
       user_profile).
Proof.
  revert user_profile. induction songs as [|song songs IH]; intros p.
  - cbn. unfold py_ret. rewrite app_nil_r. by destruct p.
  - unfold update_habits in *. cbn. unfold py_bind, py_modify at 1. rewrite IH.
    unfold UserProfile.set_listening_history. cbn. by rewrite <- app_assoc.
Qed.

(** C4. [update_habits] returns after appending one event per song, in
    the order of the songs: the history grows by the number of songs, its
    old entries stay in front, the other fields keep their values, and an
    empty sequence changes nothing. *)
Theorem update_habits_appends (user_profile : UserProfile.t) (songs : list Song.t) :
  ∃ after,
    update_habits songs user_profile = (Return tt, after)
    ∧ UserProfile.listening_history after
      = UserProfile.listening_history user_profile ++ (event_of_song <$> songs)
    ∧ length (UserProfile.listening_history after)
      = length (UserProfile.listening_history user_profile) + length songs
    ∧ take (length (UserProfile.listening_history user_profile))
           (UserProfile.listening_history after)
      = UserProfile.listening_history user_profile
    ∧ UserProfile.set_listening_history (UserProfile.listening_history user_profile) after
      = user_profile
    ∧ update_habits [] user_profile = (Return tt, user_profile).
Proof.
  eexists. split; [apply update_habits_run|]. cbn.
  split; [done|]. split; [by rewrite length_app, length_fmap|].
  split; [by rewrite take_app_length|]. split; [by destruct user_profile|].
  done.
Qed.

(** ** Dicts *)

Section dict_facts.
Context {K V : Type} `{EqDecision K}.
Implicit Types (d : list (K * V)) (k : K) (v : V).

Lemma dict_get_None d k : dict_get d k = None ↔ k ∉ dict_keys d.
Proof.
  unfold dict_keys. induction d as [|[k' v'] d IH]; cbn.
  - split; [intros _; apply not_elem_of_nil|done].
  - rewrite not_elem_of_cons. case_decide as Hk.
    + split; [done|]. by intros [? _].
    + rewrite IH. split; [done|]. by intros [_ ?].
Qed.

Lemma dict_get_is_Some d k : is_Some (dict_get d k) ↔ k ∈ dict_keys d.
Proof.
  rewrite <- not_eq_None_Some, dict_get_None.
  destruct (decide (k ∈ dict_keys d)); [|done]. split; [done|]. by intros _ ?.
Qed.

Lemma dict_set_fresh d k v : k ∉ dict_keys d → dict_set d k v = d ++ [(k, v)].
Proof.
  unfold dict_keys. induction d as [|[k' v'] d IH]; cbn; [done|].
  rewrite not_elem_of_cons. intros [Hne Hd].
  rewrite decide_False by done. by rewrite IH.
Qed.

Lemma dict_keys_set_present d k v : k ∈ dict_keys d → dict_keys (dict_set d k v) = dict_keys d.
Proof.
  unfold dict_keys. induction d as [|[k' v'] d IH]; cbn.
  - by intros ?%elem_of_nil.
  - intros Hin. case_decide; [done|]. cbn. f_equal. apply IH.
    apply elem_of_cons in Hin as [->|]; done.
Qed.

Lemma dict_get_set d k v k' :
  dict_get (dict_set d k v) k' = if decide (k = k') then Some v else dict_get d k'.
Proof.
  induction d as [|[k0 v0] d IH]; cbn.
  - by repeat case_decide.
  - destruct (decide (k0 = k)) as [->|Hne]; cbn.
    + by destruct (decide (k = k')).
    + rewrite IH. destruct (decide (k0 = k')) as [->|]; [|done].
      by rewrite decide_False.
Qed.

Lemma dict_get_lookup d i k v :
  dict_wf d → d !! i = Some (k, v) → dict_get d k = Some v.
Proof.
  unfold dict_wf, dict_keys. revert i. induction d as [|[k0 v0] d IH]; intros i Hwf Hi; [done|].
  cbn in Hwf. apply NoDup_cons in Hwf as [Hk0 Hwf].
  destruct i as [|i]; cbn in *.
  - simplify_eq. by rewrite decide_True.
  - rewrite decide_False; [by eapply IH|]. intros ->. apply Hk0.
    apply list_elem_of_fmap. exists (k, v). split; [done|]. by eapply list_elem_of_lookup_2.
Qed.

Lemma dict_get_Some_lookup d k v :
  dict_get d k = Some v → ∃ i, d !! i = Some (k, v).
Proof.
  induction d as [|[k0 v0] d IH]; cbn; [done|].
  case_decide.
  - intros. simplify_eq. by exists 0.
  - intros [i Hi]%IH. by exists (S i).
Qed.

(** A list of pairs with distinct keys is its own dict. *)
Lemma dict_of_pairs_wf (l : list (K * V)) : NoDup l.*1 → dict_of_pairs l = l.
Proof.
  unfold dict_of_pairs.
  enough (∀ acc, NoDup (acc ++ l).*1 → foldl (λ d kv, dict_set d kv.1 kv.2) acc l = acc ++ l)
    as Hgen by (intros; by apply (Hgen [])).
  induction l as [|[k v] l IH]; intros acc Hnd; cbn.
  - by rewrite app_nil_r.
  - rewrite dict_set_fresh.
    + rewrite IH; rewrite <- app_assoc; done.
    + rewrite fmap_app in Hnd. apply NoDup_app in Hnd as (_ & Hdisj & _).
      intros Hin. apply (Hdisj _ Hin). cbn. left.
Qed.

End dict_facts.

(** ** Counters *)

Lemma count_app x l1 l2 : count x (l1 ++ l2) = count x l1 + count x l2.
Proof. unfold count. by rewrite filter_app, length_app. Qed.

Lemma count_cons x y l : count x (y :: l) = (if decide (y = x) then 1 else 0) + count x l.
Proof. unfold count. rewrite filter_cons. by case_decide. Qed.

Lemma count_pos x l : 0 < count x l ↔ x ∈ l.
Proof.
  induction l as [|y l IH]; [cbn; split; [lia|by intros ?%elem_of_nil]|].
  rewrite count_cons, elem_of_cons. case_decide as Hy.
  - split; [by left|lia].
  - cbn. rewrite IH. split; [by right|]. by intros [->|].
Qed.

Lemma count_zero x l : x ∉ l → count x l = 0.
Proof. rewrite <- count_pos. lia. Qed.

Lemma first_index_lt x l : x ∈ l → first_index x l < length l.
Proof.
  induction l as [|y l IH]; [by intros ?%elem_of_nil|].
  cbn. case_decide; [lia|]. intros [->|Hin]%elem_of_cons; [done|]. apply IH in Hin. lia.
Qed.

Lemma first_index_app_l x l l' : x ∈ l → first_index x (l ++ l') = first_index x l.
Proof.
  induction l as [|y l IH]; [by intros ?%elem_of_nil|].
  cbn. case_decide; [done|]. intros [->|Hin]%elem_of_cons; [done|]. by rewrite IH.
Qed.

Lemma first_index_app_r x l l' : x ∉ l → first_index x (l ++ l') = length l + first_index x l'.
Proof.
  induction l as [|y l IH]; [done|].
  rewrite not_elem_of_cons. intros [Hne Hin]. cbn.
  rewrite decide_False by done. by rewrite IH.
Qed.

Lemma Counter_snoc l x :
  Counter (l ++ [x])
  = dict_set (Counter l) x (default 0 (dict_get (Counter l) x) + 1).
Proof. unfold Counter. by rewrite foldl_snoc. Qed.

(** The tally holds the number of occurrences of each element met. *)
Lemma Counter_get l k :
  dict_get (Counter l) k = if decide (k ∈ l) then Some (count k l) else None.
Proof.
  induction l as [|x l IH] using rev_ind.
  - cbn. rewrite decide_False; [done|apply not_elem_of_nil].
  - rewrite Counter_snoc, dict_get_set, count_app, count_cons. cbn.
    destruct (decide (x = k)) as [->|Hne].
    + rewrite decide_True by (apply elem_of_app; right; left).
      rewrite IH. case_decide; cbn; [f_equal; lia|].
      rewrite count_zero by done. done.
    + rewrite IH. destruct (decide (k ∈ l)) as [Hin|Hin].
      * rewrite decide_True by (apply elem_of_app; by left). f_equal. lia.
      * rewrite decide_False; [done|].
        intros [?|?%list_elem_of_singleton]%elem_of_app; done.
Qed.

Lemma Counter_keys l k : k ∈ dict_keys (Counter l) ↔ k ∈ l.
Proof.
  rewrite <- dict_get_is_Some, Counter_get. case_decide; [|by split; [intros []|]].
  split; [done|]. by eexists.
Qed.

Lemma Counter_wf l : dict_wf (Counter l).
Proof.
  unfold dict_wf. induction l as [|x l IH] using rev_ind; [constructor|].
  rewrite Counter_snoc. destruct (decide (x ∈ dict_keys (Counter l))) as [Hin|Hin].
  - by rewrite dict_keys_set_present.
  - rewrite dict_set_fresh by done. unfold dict_keys in *. rewrite fmap_app. cbn.
    apply NoDup_app. split; [done|]. split; [|apply NoDup_singleton].
    intros y Hy ->%list_elem_of_singleton. done.
Qed.

(** The keys of the tally stand in the order of their first occurrence. *)
Lemma Counter_order l i j a b :
  dict_keys (Counter l) !! i = Some a → dict_keys (Counter l) !! j = Some b → i < j →
  first_index a l < first_index b l.
Proof.
  revert i j a b. induction l as [|x l IH] using rev_ind; intros i j a b Ha Hb Hij; [done|].
  rewrite Counter_snoc in Ha, Hb.
  destruct (decide (x ∈ dict_keys (Counter l))) as [Hin|Hin].
  - rewrite dict_keys_set_present in Ha, Hb by done.
    rewrite !first_index_app_l by (eapply Counter_keys, list_elem_of_lookup_2; done).
    by eapply IH.
  - rewrite dict_set_fresh in Ha, Hb by done.
    unfold dict_keys in Ha, Hb. rewrite fmap_app in Ha, Hb. cbn in Ha, Hb.
    fold (dict_keys (Counter l)) in Ha, Hb.
    apply lookup_app_Some in Hb as [Hb|[Hlen Hb]].
    + rewrite lookup_app_l in Ha by (apply lookup_lt_Some in Hb; lia).
      rewrite !first_index_app_l by (eapply Counter_keys, list_elem_of_lookup_2; done).
      by eapply IH.
    + apply list_lookup_singleton_Some in Hb as [Hj ->].
      rewrite lookup_app_l in Ha by lia.
      assert (Hal : a ∈ l) by (eapply Counter_keys, list_elem_of_lookup_2; done).
      rewrite first_index_app_l by done.
      rewrite first_index_app_r by (by rewrite <- Counter_keys).
      pose proof (first_index_lt a l Hal). lia.
Qed.

(** [max] returns the first item whose key is the largest. *)
Lemma py_max_snoc {A} (key : A → nat) it y :
  py_max key (it ++ [y])
  = Some match py_max key it with
         | None => y
         | Some best => if bool_decide (key best < key y) then y else best
         end.
Proof. destruct it as [|x it]; [done|]. cbn. by rewrite foldl_snoc. Qed.

Lemma py_max_first {A} (key : A → nat) it :
  it ≠ [] →
  ∃ i best, py_max key it = Some best ∧ it !! i = Some best
    ∧ (∀ j y, it !! j = Some y → key y ≤ key best)
    ∧ (∀ j y, it !! j = Some y → j < i → key y < key best).
Proof.
  induction it as [|y it IH] using rev_ind; [done|]. intros _.
  rewrite py_max_snoc. destruct it as [|x it'] eqn:E.
  { exists 0, y. cbn. split; [done|]. split; [done|].
    split; intros [|j] z Hz; cbn in *; simplify_eq; lia. }
  rewrite <- E in *. destruct IH as (i & best & -> & Hi & Hmax & Hfirst); [by subst|].
  pose proof (lookup_lt_Some _ _ _ Hi) as Hlt.
  case_bool_decide as Hcmp.
  - exists (length it), y. split; [done|].
    split; [by rewrite lookup_app_r, Nat.sub_diag|].
    split; intros j z Hz.
    + apply lookup_app_Some in Hz as [Hz|[_ Hz]].
      * apply Hmax in Hz. lia.
      * apply list_lookup_singleton_Some in Hz as [_ ->]. lia.
    + intros Hj. rewrite lookup_app_l in Hz by lia. apply Hmax in Hz. lia.
  - exists i, best. split; [done|]. split; [by rewrite lookup_app_l|].
    split; intros j z Hz.
    + apply lookup_app_Some in Hz as [Hz|[_ Hz]]; [by eapply Hmax|].
      apply list_lookup_singleton_Some in Hz as [_ ->]. lia.
    + intros Hj. rewrite lookup_app_l in Hz by lia. by eapply Hfirst.
Qed.

(** ** Playlist builder *)

Lemma most_common_1_favorite moods :
  moods ≠ [] →
  ∃ f n, most_common_1 (Counter moods) = [(f, n)] ∧ is_favorite_mood f moods.
Proof.
  intros Hne.
  assert (Hc : Counter moods ≠ []).
  { destruct moods as [|m moods]; [done|].
    assert (Hm : m ∈ dict_keys (Counter (m :: moods))) by (apply Counter_keys; left).
    intros E. rewrite E in Hm. by apply elem_of_nil in Hm. }
  destruct (py_max_first snd (Counter moods) Hc) as (i & [f n] & Hmax & Hi & Hle & Hlt).
  exists f, n. unfold most_common_1. rewrite Hmax. split; [done|].
  pose proof (dict_get_lookup _ _ _ _ (Counter_wf moods) Hi) as Hf.
  rewrite Counter_get in Hf. case_decide as Hfin; [|done]. injection Hf as <-.
  split; [done|]. split.
  - intros m. destruct (decide (m ∈ moods)) as [Hm|Hm]; [|rewrite (count_zero m) by done; lia].
    pose proof (Counter_get moods m) as Hget. rewrite decide_True in Hget by done.
    apply dict_get_Some_lookup in Hget as [j Hj]. by apply Hle in Hj.
  - intros m Hmf Hcount.
    assert (Hm : m ∈ moods) by (apply count_pos; rewrite Hcount; by apply count_pos).
    pose proof (Counter_get moods m) as Hget. rewrite decide_True in Hget by done.
    apply dict_get_Some_lookup in Hget as [j Hj].
    destruct (decide (j < i)) as [Hji|Hji]; [apply Hlt in Hj; [cbn in Hj; lia|done]|].
    destruct (decide (j = i)) as [->|Hne']; [congruence|].
    apply (Counter_order moods i j); [| |lia].
    + unfold dict_keys. by rewrite list_lookup_fmap, Hi.
    + unfold dict_keys. by rewrite list_lookup_fmap, Hj.
Qed.

(** The favorite mood of a history is determined. *)
Lemma is_favorite_mood_unique f g moods :
  is_favorite_mood f moods → is_favorite_mood g moods → f = g.
Proof.
  intros (_ & Hf & Hfirst) (_ & Hg & Hgfirst).
  destruct (decide (f = g)) as [|Hne]; [done|].
  assert (Hcount : count g moods = count f moods).
  { pose proof (Hf g). pose proof (Hg f). lia. }
  pose proof (Hfirst g (not_eq_sym Hne) Hcount).
  pose proof (Hgfirst f Hne (eq_sym Hcount)). lia.
Qed.

(** The builder reads the history and nothing else, writes nothing and
    does not raise. *)
Lemma create_personalized_playlist_frame p q :
  UserProfile.listening_history q = UserProfile.listening_history p →
  ∃ playlist,
    create_personalized_playlist p = (Return playlist, p)
    ∧ create_personalized_playlist q = (Return playlist, q).
Proof.
  intros Hh. unfold create_personalized_playlist, py_bind, py_get. rewrite Hh.
  case_bool_decide as Hnil; [by eexists|].
  destruct (most_common_1_favorite (HistoryEvent.mood <$> UserProfile.listening_history p))
    as (f & n & -> & _); [by destruct (UserProfile.listening_history p)|].
  by eexists.
Qed.

(** C2. With an empty history the builder returns the empty sequence;
    otherwise it returns the first ten, at most, of the catalog entries
    whose mood is the favorite mood, in catalog order, the favorite mood
    being the most frequent mood of the history and, among equally
    frequent ones, the one met first. *)
Theorem create_personalized_playlist_favorite (user_profile : UserProfile.t) :
  let history := UserProfile.listening_history user_profile in
  (history = [] → create_personalized_playlist user_profile = (Return [], user_profile))
  ∧ (history ≠ [] →
     ∃ favorite_mood,
       is_favorite_mood favorite_mood (HistoryEvent.mood <$> history)
       ∧ create_personalized_playlist user_profile
         = (Return (take 10 (filter (λ song, Song.mood song = favorite_mood) songs_dataset)),
            user_profile)).
Proof.
  intros history. subst history. split; intros Hh.
  - unfold create_personalized_playlist, py_bind, py_get.
    by rewrite bool_decide_eq_true_2.
  - destruct (most_common_1_favorite (HistoryEvent.mood <$> UserProfile.listening_history user_profile))
      as (f & n & Hmc & Hfav); [by destruct (UserProfile.listening_history user_profile)|].
    exists f. split; [done|].
    unfold create_personalized_playlist, py_bind, py_get.
    rewrite bool_decide_eq_false_2 by done. by rewrite Hmc.
Qed.

(** Two plays of happy party songs and one of a sad study song: the
    playlist holds the happy songs of the catalog. *)
Example playlist_happy_happy_sad :
  create_personalized_playlist
    (UserProfile.mk "" "" [ HistoryEvent.mk "happy" "Pharrell Williams" "party";
                            HistoryEvent.mk "happy" "Queen" "party";
                            HistoryEvent.mk "sad" "Adele" "study" ] [] 0)
  = (Return [ Song.mk "Happy" "Pharrell Williams" "Pop" "happy" "party";
              Song.mk "Don't Stop Me Now" "Queen" "Rock" "happy" "party" ],
     UserProfile.mk "" "" [ HistoryEvent.mk "happy" "Pharrell Williams" "party";
                            HistoryEvent.mk "happy" "Queen" "party";
                            HistoryEvent.mk "sad" "Adele" "study" ] [] 0).
Proof. by vm_compute. Qed.

(** A tie goes to the mood met first. *)
Example playlist_tie_first_met :
  (create_personalized_playlist
     (UserProfile.mk "" "" [ HistoryEvent.mk "sad" "Adele" "study";
                             HistoryEvent.mk "calm" "Post Malone" "study";
                             HistoryEvent.mk "calm" "Marconi Union" "study";
                             HistoryEvent.mk "sad" "Billie Eilish" "study" ] [] 0)).1
  = Return [ Song.mk "Someone Like You" "Adele" "Soul" "sad" "study";
             Song.mk "Lovely" "Billie Eilish" "Pop" "sad" "study" ].
Proof. by vm_compute. Qed.

(** C7. The builder is deterministic and changes nothing: a call returns
    a playlist and leaves the profile as it was, a second call returns the
    same playlist, and so does a call on any profile with the same
    history; no generator is read. *)
Theorem create_personalized_playlist_idempotent (user_profile : UserProfile.t) :
  ∃ playlist,
    create_personalized_playlist user_profile = (Return playlist, user_profile)
    ∧ (first <- create_personalized_playlist ;;
       second <- create_personalized_playlist ;;
       py_ret (first, second)) user_profile
      = (Return (playlist, playlist), user_profile)
    ∧ ∀ other,
        UserProfile.listening_history other = UserProfile.listening_history user_profile →
        create_personalized_playlist other = (Return playlist, other).
Proof.
  destruct (create_personalized_playlist_frame user_profile user_profile eq_refl)
    as (playlist & Hrun & _).
  exists playlist. split; [done|]. split.
  - unfold py_bind. rewrite Hrun. by rewrite Hrun.
  - intros other Hh.
    destruct (create_personalized_playlist_frame user_profile other Hh) as (pl & Hp & Hq).
    congruence.
Qed.

(** ** Clusterer *)

Lemma counter_get_count l k : counter_get (Counter l) k 0 = count k l.
Proof.
  unfold counter_get. rewrite Counter_get. case_decide; [done|].
  cbn. by rewrite count_zero.
Qed.

(** The vector built by the loop body is the count vector of the history. *)
Lemma feature_counts profile :
  feature profile = feature_vector (UserProfile.listening_history profile).
Proof. unfold feature, feature_vector, count_vector. cbn. by rewrite !counter_get_count. Qed.






Lemma cluster_inputs_eq users :
  cluster_inputs users = (feature <$> users.*2, users.*1).
Proof.
  unfold cluster_inputs.
  enough (∀ fs us,
    foldl (λ acc item,
             let '(features, usernames) := acc in
             let '(username, profile) := item in
             (features ++ [feature profile], usernames ++ [username]))
          (fs, us) users
    = (fs ++ (feature <$> users.*2), us ++ users.*1)) as Hgen by apply (Hgen [] []).
  induction users as [|[u p] users IH]; intros fs us; cbn.
  - by rewrite !app_nil_r.
  - rewrite IH. by rewrite <- !app_assoc.
Qed.

Lemma parity_kmeans_contract : kmeans_contract parity_kmeans.
Proof.
  intros k X Hk. unfold parity_kmeans. split; [by rewrite length_fmap|].
  apply Forall_fmap, Forall_true. intros row. cbn. apply Nat.mod_upper_bound. lia.
Qed.

Section clusterer_facts.
Variable fit_predict : kmeans.
Hypothesis fit_predict_contract : kmeans_contract fit_predict.

(** C3. With fewer than two users [cluster_users] returns the empty
    sequence.  With N >= 2 users it hands k-means the count vectors of the
    users' histories (eight counts each: the five moods, then the three
    activities) and returns N pairs, one per user in the order of the
    store, each label below [min(2, N)]. *)
Theorem cluster_users_labels (users : dict string UserProfile.t) :
  let N := length users in
  let X := (λ item, feature_vector (UserProfile.listening_history item.2)) <$> users in
  (N < 2 → cluster_users fit_predict users = (Return [], users))
  ∧ (2 ≤ N →
     ∃ result,
       cluster_users fit_predict users = (Return result, users)
       ∧ result = zip (dict_keys users) (fit_predict (min 2 N) X)
       ∧ length result = N
       ∧ result.*1 = dict_keys users
       ∧ Forall (λ label, label < min 2 N) result.*2
       ∧ Forall (λ row, length row = 8) X).
Proof.
  intros N X. unfold cluster_users, py_bind, py_get. fold N. split; intros HN.
  - by rewrite bool_decide_eq_true_2.
  - rewrite bool_decide_eq_false_2 by lia. rewrite cluster_inputs_eq.
    assert (HX : feature <$> users.*2 = X).
    { subst X. rewrite <- list_fmap_compose. apply list_fmap_ext.
      intros i [u p] _. cbn. apply feature_counts. }
    rewrite HX. eexists. split; [done|]. split; [done|].
    destruct (fit_predict_contract (min 2 N) X) as [Hlen Hlab].
    { subst X. rewrite length_fmap. fold N. lia. }
    unfold dict_keys.
    assert (Hkeys : length users.*1 = N) by (by rewrite length_fmap).
    assert (HXlen : length X = N) by (subst X; by rewrite length_fmap).
    split; [rewrite length_zip; lia|].
    split; [apply fst_zip; lia|].
    split; [rewrite snd_zip by lia; done|].
    subst X. apply Forall_fmap, Forall_true. by intros [u p].
Qed.

End clusterer_facts.

Lemma cluster_users_labels_sample :
  kmeans_contract parity_kmeans
  ∧ (cluster_users parity_kmeans sample_users).1 = Return [("ann", 0); ("bob", 1)]
  ∧ (cluster_users parity_kmeans stale_users).1 = Return [].
Proof.
  split; [exact parity_kmeans_contract|].
  destruct (cluster_users_labels parity_kmeans parity_kmeans_contract sample_users) as [_ Hmany].
  destruct (cluster_users_labels parity_kmeans parity_kmeans_contract stale_users) as [Hfew _].
  destruct (Hmany ltac:(cbn; lia)) as (result & Hrun & -> & _).
  rewrite Hrun, (Hfew ltac:(cbn; lia)). split; reflexivity.
Defined.



(** ** The persisted format *)

Lemma song_of_to_json song : song_of_json (song_to_json song) = Some song.
Proof. destruct song. by vm_compute. Qed.

Lemma event_of_to_json h : event_of_json (event_to_json h) = Some h.
Proof. destruct h. by vm_compute. Qed.

Lemma profile_of_to_json p : profile_of_json (profile_to_json p) = Some p.
Proof.
  destruct p as [fm fa history playlists likes].
  unfold profile_of_json, profile_to_json. cbn [json_object UserProfile.favorite_mood
    UserProfile.favorite_activity UserProfile.listening_history UserProfile.playlists
    UserProfile.likes mbind option_bind].
  generalize (event_to_json <$> history) (mapM_fmap_Some event_of_json event_to_json history event_of_to_json).
  generalize (song_to_json <$> playlists) (mapM_fmap_Some song_of_json song_to_json playlists song_of_to_json).
  intros js Hjs je Hje.
  change (dict_of_pairs [("favorite_mood", JString fm); ("favorite_activity", JString fa);
            ("listening_history", JArray je); ("playlists", JArray js); ("likes", JInt likes)])
    with [("favorite_mood", JString fm); ("favorite_activity", JString fa);
            ("listening_history", JArray je); ("playlists", JArray js); ("likes", JInt likes)].
  change (dict_get _ "favorite_mood") with (Some (JString fm)).
  change (dict_get _ "favorite_activity") with (Some (JString fa)).
  change (dict_get _ "listening_history") with (Some (JArray je)).
  change (dict_get _ "playlists") with (Some (JArray js)).
  change (dict_get _ "likes") with (Some (JInt likes)).
  cbn. rewrite Hje. cbn. rewrite Hjs. done.
Qed.

Lemma users_of_to_json users :
  dict_wf users → users_of_json (users_to_json users) = Some users.
Proof.
  intros Hwf. unfold users_of_json, users_to_json. cbn.
  rewrite dict_of_pairs_wf.
  - apply mapM_fmap_Some. intros [u p].
    change (prod_map id profile_to_json (u, p)) with (u, profile_to_json p).
    cbn [fst snd]. by rewrite profile_of_to_json.
  - rewrite <- list_fmap_compose. exact Hwf.
Qed.

(** Without the file the store is empty. *)
Lemma load_users_bootstrap w :
  files w !! USERS_FILE = None → load_users w = (Return [], w).
Proof. intros Hf. unfold load_users, py_bind, py_get. by rewrite Hf. Qed.

(** C6. A store written by [save_users] is read back by [load_users]
    as it was, user by user and field by field. *)
Theorem save_load_roundtrip (users : dict string UserProfile.t) (w : world) :
  dict_wf users →
  (save_users users ;; load_users) w
  = (Return users, set_files (<[USERS_FILE := users_to_json users]> (files w)) w).
Proof.
  intros Hwf. unfold save_users, load_users, py_bind, py_modify, py_get.
  cbn [files set_files]. rewrite lookup_insert_eq. by rewrite users_of_to_json.
Qed.

Lemma save_load_roundtrip_sample :
  dict_wf sample_users
  ∧ (save_users sample_users ;; load_users) (World ∅ None [] [])
    = (Return sample_users, World {[USERS_FILE := users_to_json sample_users]} None [] []).
Proof.
  assert (Hwf : dict_wf sample_users) by (apply (bool_decide_unpack _); by vm_compute).
  split; [exact Hwf|]. exact (save_load_roundtrip sample_users (World ∅ None [] []) Hwf).
Defined.

(** ** The pages *)

Lemma dict_set_same {V} (d : list (string * V)) k v :
  dict_get d k = Some v → dict_set d k v = d.
Proof.
  induction d as [|[k0 v0] d IH]; cbn; [done|].
  case_decide; [by intros [= ->]|]. intros Hget. by rewrite IH.
Qed.

Lemma dict_contains_false {V} (d : list (string * V)) k :
  dict_contains d k = false → k ∉ dict_keys d.
Proof.
  unfold dict_contains. intros Hc%bool_decide_eq_false. by rewrite <- dict_get_is_Some.
Qed.

Lemma dict_contains_true {V} (d : list (string * V)) k :
  dict_contains d k = true → k ∈ dict_keys d.
Proof.
  unfold dict_contains. intros Hc%bool_decide_eq_true. by rewrite <- dict_get_is_Some.
Qed.

Lemma py_for_st {A} (f : A → st_call) xs w :
  py_for xs (λ x, st (f x)) w = (Return tt, set_page (page w ++ (f <$> xs)) w).
Proof.
  revert w. induction xs as [|x xs IH]; intros w.
  - cbn. unfold py_ret. rewrite app_nil_r. by destruct w.
  - cbn. unfold py_bind, st at 1, py_modify. rewrite IH.
    unfold set_page. cbn. by rewrite <- app_assoc.
Qed.

(** C8. Registering a name that is not in the store adds a profile with
    empty favorite mood and activity, empty history, empty playlists and
    no likes, and writes the store to the file; registering a name that
    is in the store reports the duplicate and leaves store and file as
    they were. *)
Theorem register_creates_or_reports (ws : widgets) (w : world) :
  w_login_choice ws = Register →
  w_button ws "Register" = true →
  let new_username := w_text_input ws in
  (dict_contains (users w) new_username = false →
     ∃ w', login ws w = (Raise RerunException, w')
       ∧ users w' = users w ++ [(new_username, UserProfile.mk "" "" [] [] 0)]
       ∧ dict_get (users w') new_username = Some (UserProfile.mk "" "" [] [] 0)
       ∧ persisted w'
       ∧ session_username w' = Some new_username
       ∧ page w' = page w ++ [st_title "Login or Register";
                               st_success "Registration successful!"])
  ∧ (dict_contains (users w) new_username = true →
     ∃ w', login ws w = (Return tt, w')
       ∧ users w' = users w
       ∧ files w' = files w
       ∧ session_username w' = session_username w
       ∧ page w' = page w ++ [st_title "Login or Register";
                               st_error "Username already exists."]).
Proof.
  intros Hchoice Hbutton new_username. unfold login. rewrite Hchoice, Hbutton.
  fold new_username. split; intros Hin.
  - pose proof (dict_contains_false _ _ Hin) as Hfresh.
    unfold py_bind, st, py_modify, py_get, on_users, save_users, py_raise. cbn.
    rewrite Hin. cbn. eexists. split; [done|]. cbn.
    rewrite dict_set_fresh by done.
    split; [done|]. split.
    { assert (E : dict_get (dict_set (users w) new_username (UserProfile.mk "" "" [] [] 0))
                    new_username = Some (UserProfile.mk "" "" [] [] 0))
        by (by rewrite dict_get_set, decide_True).
      by rewrite dict_set_fresh in E. }
    split; [apply lookup_insert_eq|]. split; [done|]. by rewrite <- app_assoc.
  - unfold py_bind, st, py_modify, py_get. cbn. rewrite Hin. cbn.
    eexists. split; [done|]. cbn. by rewrite <- app_assoc.
Qed.

Lemma register_creates_or_reports_sample :
  w_login_choice (sample_widgets Register "carl" Home) = Register
  ∧ w_button (sample_widgets Register "carl" Home) "Register" = true
  ∧ dict_keys (users (login (sample_widgets Register "carl" Home) sample_world).2)
    = ["ann"; "bob"; "carl"]
  ∧ users (login (sample_widgets Register "bob" Home) sample_world).2 = sample_users.
Proof.
  split; [reflexivity|]. split; [reflexivity|].
  destruct (register_creates_or_reports (sample_widgets Register "carl" Home) sample_world
              eq_refl eq_refl) as [Hnew _].
  destruct (register_creates_or_reports (sample_widgets Register "bob" Home) sample_world
              eq_refl eq_refl) as [_ Hdup].
  destruct (Hnew eq_refl) as (w1 & Hrun1 & Husers1 & _).
  destruct (Hdup eq_refl) as (w2 & Hrun2 & Husers2 & _).
  rewrite Hrun1, Hrun2. cbn [snd]. rewrite Husers1, Husers2.
  split; reflexivity.
Defined.

(** One run of the My Playlist page. *)
Lemma main_app_my_playlist ws rnd fit_predict w username profile playlist :
  session_username w = Some username →
  dict_get (users w) username = Some profile →
  w_menu ws = MyPlaylist →
  create_personalized_playlist profile = (Return playlist, profile) →
  main_app ws rnd fit_predict w
  = (Return tt,
     let greeting := [ st_sidebar_title ("Welcome, " +:+ username +:+ "!");
                       st_header "Your Personalized Playlist" ] in
     if py_bool playlist then
       let stored := dict_set (users w) username
                       (UserProfile.set_playlists playlist profile) in
       World (<[USERS_FILE := users_to_json stored]> (files w)) (Some username) stored
             (page w ++ greeting ++ ((λ song, st_write (song_line song)) <$> playlist))
     else
       World (files w) (Some username) (users w)
             (page w ++ greeting ++ [st_warning "Not enough listening history yet."])).
Proof.
  destruct w as [file session store pg].
  cbn [session_username users page files]. intros -> Hget Hmenu Hrun.
  unfold main_app. rewrite Hmenu.
  cbv [py_bind py_get on_users at_key save_users st py_modify set_page set_users
       set_files page users session_username files
       str_username].
  rewrite Hget, Hrun. rewrite dict_set_same by done.
  destruct playlist as [|song playlist]; cbv [py_bool].
  - by rewrite <- !app_assoc.
  - rewrite Hget.
    change (py_for (song :: playlist) ?body)
      with (py_for (song :: playlist) (λ song, st (st_write (song_line song)))).
    rewrite py_for_st. cbv [set_page page users session_username files].
    by rewrite <- !app_assoc.
Qed.

(** The My Playlist page stores a playlist only when the builder found
    one: a playlist left in the file by an earlier state of the profile
    outlives an empty result. *)
Lemma my_playlist_keeps_stale_playlist :
  ¬ my_playlist_overwritten (sample_widgets Login "" MyPlaylist) (λ _, 0) parity_kmeans
      stale_world.
Proof.
  intros Hclaim.
  destruct (Hclaim "ann" (UserProfile.mk "" "" [] [stronger] 0) eq_refl eq_refl eq_refl)
    as (w' & playlist & Hrun & Hbuilt & Hstored & _).
  vm_compute in Hrun. vm_compute in Hbuilt.
  injection Hrun as <-. injection Hbuilt as <-. vm_compute in Hstored. discriminate Hstored.
Qed.

(** The stale profile is what one run of the script loads from such a
    file before it shows the page. *)
Example app_loads_stale_playlist :
  ∃ w', app (sample_widgets Login "" MyPlaylist) (λ _, 0) parity_kmeans
            (World {[USERS_FILE := users_to_json stale_users]} (Some "ann") [] [])
        = (Return tt, w')
    ∧ users w' = stale_users
    ∧ (create_personalized_playlist (UserProfile.mk "" "" [] [stronger] 0)).1 = Return [].
Proof. eexists. by vm_compute. Qed.

(** On a store in which a profile has no playlist unless the builder
    finds one, as in every store the pages themselves produce from an
    empty file, the page leaves the builder's result in the playlists
    field. *)
Lemma my_playlist_overwritten_consistent ws rnd fit_predict w username profile :
  session_username w = Some username →
  dict_get (users w) username = Some profile →
  w_menu ws = MyPlaylist →
  persisted w →
  (create_personalized_playlist profile = (Return [], profile) →
   UserProfile.playlists profile = []) →
  ∃ w' playlist,
    main_app ws rnd fit_predict w = (Return tt, w')
    ∧ create_personalized_playlist profile = (Return playlist, profile)
    ∧ UserProfile.playlists <$> dict_get (users w') username = Some playlist
    ∧ persisted w'.
Proof.
  intros Hsession Hget Hmenu Hfile Hempty.
  destruct (create_personalized_playlist_frame profile profile eq_refl) as (playlist & Hrun & _).
  eexists _, playlist.
  split; [by apply (main_app_my_playlist ws rnd fit_predict w username profile playlist)|].
  split; [done|]. unfold persisted.
  destruct playlist as [|song playlist]; cbn [py_bool users files].
  - rewrite Hget. cbn. by rewrite Hempty.
  - split; [by rewrite dict_get_set, decide_True|]. apply lookup_insert_eq.
Qed.

(** C5, as the page does it.  The My Playlist page calls the builder on
    the profile of the logged-in user.  A playlist that is not empty
    replaces the playlists field of that profile and the store is written
    to the file; with an empty result the page only warns, and store and
    file stay as they were. *)
Theorem my_playlist_overwritten_when_found (ws : widgets) (rnd : random_source)
    (fit_predict : kmeans) (w : world) (username : string) (profile : UserProfile.t) :
  session_username w = Some username →
  dict_get (users w) username = Some profile →
  w_menu ws = MyPlaylist →
  ∃ playlist,
    create_personalized_playlist profile = (Return playlist, profile)
    ∧ (playlist ≠ [] →
       ∃ w', main_app ws rnd fit_predict w = (Return tt, w')
         ∧ users w' = dict_set (users w) username (UserProfile.set_playlists playlist profile)
         ∧ UserProfile.playlists <$> dict_get (users w') username = Some playlist
         ∧ persisted w'
         ∧ session_username w' = session_username w)
    ∧ (playlist = [] →
       ∃ w', main_app ws rnd fit_predict w = (Return tt, w')
         ∧ users w' = users w
         ∧ files w' = files w
         ∧ session_username w' = session_username w
         ∧ page w' = page w ++ [ st_sidebar_title ("Welcome, " +:+ username +:+ "!");
                                 st_header "Your Personalized Playlist";
                                 st_warning "Not enough listening history yet." ]).
Proof.
  intros Hsession Hget Hmenu.
  destruct (create_personalized_playlist_frame profile profile eq_refl) as (playlist & Hrun & _).
  exists playlist. split; [done|].
  rewrite (main_app_my_playlist ws rnd fit_predict w username profile playlist) by done.
  split; intros Hpl.
  - destruct playlist as [|song playlist]; [done|]. eexists. split; [done|].
    unfold persisted. cbn [py_bool users files session_username]. split; [done|].
    split; [by rewrite dict_get_set, decide_True|]. split; [apply lookup_insert_eq|done].
  - subst playlist. eexists. split; [done|]. cbn. by rewrite Hsession.
Qed.

Lemma my_playlist_overwritten_when_found_sample :
  session_username sample_world = Some "ann"
  ∧ dict_get (users sample_world) "ann"
    = Some (UserProfile.mk "" "" [event_of_song stronger] [stronger] 2)
  ∧ w_menu (sample_widgets Login "" MyPlaylist) = MyPlaylist
  ∧ ∃ playlist,
      create_personalized_playlist (UserProfile.mk "" "" [event_of_song stronger] [stronger] 2)
      = (Return playlist, UserProfile.mk "" "" [event_of_song stronger] [stronger] 2)
      ∧ length playlist = 2.
Proof.
  split; [reflexivity|]. split; [reflexivity|]. split; [reflexivity|].
  destruct (my_playlist_overwritten_when_found (sample_widgets Login "" MyPlaylist)
              (λ _, 0) parity_kmeans sample_world "ann"
              (UserProfile.mk "" "" [event_of_song stronger] [stronger] 2)
              eq_refl eq_refl eq_refl) as (playlist & Hrun & _).
  exists playlist. split; [exact Hrun|].
  vm_compute in Hrun. injection Hrun as <-. reflexivity.
Defined.

(* ================================================================= *)
(** * Further properties of the program *)

(** ** Habit tracker and playlist builder *)

(** X1. Two recordings in a row are one recording of the two sequences:
    nothing is merged or dropped, and a song recorded twice is in the
    history twice. *)
Theorem update_habits_compose (songs1 songs2 : list Song.t) (user_profile : UserProfile.t) :
  (update_habits songs1 ;; update_habits songs2) user_profile
  = update_habits (songs1 ++ songs2) user_profile
  ∧ UserProfile.listening_history
      ((update_habits songs1 ;; update_habits songs2) user_profile).2
    = UserProfile.listening_history user_profile
      ++ (event_of_song <$> songs1) ++ (event_of_song <$> songs2).
Proof.
  assert (E : (update_habits songs1 ;; update_habits songs2) user_profile
              = update_habits (songs1 ++ songs2) user_profile).
  { unfold update_habits. symmetry. apply py_for_app. }
  split; [done|]. rewrite E, update_habits_run. cbn. by rewrite fmap_app.
Qed.

Lemma count_Permutation x l l' : l ≡ₚ l' → count x l = count x l'.
Proof. intros Hp. unfold count. by rewrite Hp. Qed.

Lemma strict_favorite_is_favorite f g moods :
  strict_favorite f moods → is_favorite_mood g moods → g = f.
Proof.
  intros [_ Hstrict] (_ & Hmax & _). destruct (decide (g = f)) as [|Hne]; [done|].
  pose proof (Hstrict g Hne). pose proof (Hmax f). lia.
Qed.

(** The builder run on a history with a known favorite mood. *)
Lemma create_personalized_playlist_run p f :
  is_favorite_mood f (HistoryEvent.mood <$> UserProfile.listening_history p) →
  create_personalized_playlist p
  = (Return (take 10 (filter (λ song, Song.mood song = f) songs_dataset)), p).
Proof.
  intros Hfav.
  assert (Hne : HistoryEvent.mood <$> UserProfile.listening_history p ≠ []).
  { destruct Hfav as [Hin _]. intros E. rewrite E in Hin. by apply elem_of_nil in Hin. }
  destruct (most_common_1_favorite _ Hne) as (g & n & Hmc & Hg).
  rewrite (is_favorite_mood_unique f g _ Hfav Hg).
  unfold create_personalized_playlist, py_bind, py_get.
  rewrite bool_decide_eq_false_2 by (intros E; by rewrite E in Hne). by rewrite Hmc.
Qed.

Lemma strict_favorite_favorite f moods : strict_favorite f moods → is_favorite_mood f moods.
Proof.
  intros [Hin Hstrict]. split; [done|]. split.
  - intros m. destruct (decide (m = f)) as [->|Hne]; [done|]. pose proof (Hstrict m Hne). lia.
  - intros m Hne Hcount. pose proof (Hstrict m Hne). lia.
Qed.

(** X2. When one mood is strictly the most frequent in a history, the
    playlist is the catalog's songs of that mood whatever the order of the
    events; with a tie the order of the events decides. *)
Theorem playlist_order_independent_without_tie (p q : UserProfile.t) (f : string) :
  UserProfile.listening_history p ≡ₚ UserProfile.listening_history q →
  strict_favorite f (HistoryEvent.mood <$> UserProfile.listening_history p) →
  (create_personalized_playlist p).1
    = Return (take 10 (filter (λ song, Song.mood song = f) songs_dataset))
  ∧ (create_personalized_playlist q).1 = (create_personalized_playlist p).1
  ∧ ∃ p' q',
      UserProfile.listening_history p' ≡ₚ UserProfile.listening_history q'
      ∧ (create_personalized_playlist p').1 ≠ (create_personalized_playlist q').1.
Proof.
  intros Hperm Hp.
  assert (Hq : strict_favorite f (HistoryEvent.mood <$> UserProfile.listening_history q)).
  { destruct Hp as [Hin Hstrict]. split; [by rewrite <- Hperm|].
    intros m Hne. rewrite <- !(count_Permutation _ _ _ (fmap_Permutation _ _ _ Hperm)).
    by apply Hstrict. }
  rewrite (create_personalized_playlist_run p f) by by apply strict_favorite_favorite.
  rewrite (create_personalized_playlist_run q f) by by apply strict_favorite_favorite.
  split; [done|]. split; [done|].
  exists (UserProfile.mk "" "" [ HistoryEvent.mk "sad" "Adele" "study";
                                 HistoryEvent.mk "calm" "Post Malone" "study" ] [] 0),
         (UserProfile.mk "" "" [ HistoryEvent.mk "calm" "Post Malone" "study";
                                 HistoryEvent.mk "sad" "Adele" "study" ] [] 0).
  split; [apply Permutation_swap|]. by vm_compute.
Qed.

Lemma strict_favorite_happy_sad_happy : strict_favorite "happy" ["happy"; "sad"; "happy"].
Proof.
  split; [left|]. intros m Hne. rewrite !count_cons.
  repeat case_decide; simplify_eq; cbn; lia.
Qed.

Lemma playlist_order_independent_without_tie_sample :
  [ HistoryEvent.mk "happy" "Queen" "party"; HistoryEvent.mk "sad" "Adele" "study";
    HistoryEvent.mk "happy" "Pharrell Williams" "party" ]
  ≡ₚ [ HistoryEvent.mk "sad" "Adele" "study"; HistoryEvent.mk "happy" "Queen" "party";
       HistoryEvent.mk "happy" "Pharrell Williams" "party" ]
  ∧ strict_favorite "happy" ["happy"; "sad"; "happy"]
  ∧ (create_personalized_playlist
       (UserProfile.mk "" "" [ HistoryEvent.mk "sad" "Adele" "study";
                               HistoryEvent.mk "happy" "Queen" "party";
                               HistoryEvent.mk "happy" "Pharrell Williams" "party" ] [] 0)).1
    = Return [ Song.mk "Happy" "Pharrell Williams" "Pop" "happy" "party";
               Song.mk "Don't Stop Me Now" "Queen" "Rock" "happy" "party" ].
Proof.
  assert (Hperm :
    [ HistoryEvent.mk "happy" "Queen" "party"; HistoryEvent.mk "sad" "Adele" "study";
      HistoryEvent.mk "happy" "Pharrell Williams" "party" ]
    ≡ₚ [ HistoryEvent.mk "sad" "Adele" "study"; HistoryEvent.mk "happy" "Queen" "party";
         HistoryEvent.mk "happy" "Pharrell Williams" "party" ]) by apply Permutation_swap.
  pose proof strict_favorite_happy_sad_happy as Hfav.
  split; [exact Hperm|]. split; [exact Hfav|].
  destruct (playlist_order_independent_without_tie
              (UserProfile.mk "" "" _ [] 0) (UserProfile.mk "" "" _ [] 0) "happy" Hperm Hfav)
    as (Hp & Hq & _).
  rewrite Hq. exact Hp.
Defined.

Lemma enumerated_counts_le (l : list string) :
  count "happy" l + count "sad" l + count "energetic" l + count "calm" l
    + count "motivational" l ≤ length l
  ∧ count "gym" l + count "study" l + count "party" l ≤ length l.
Proof.
  induction l as [|x l [IHm IHa]]; [by cbn|].
  rewrite !count_cons. cbn [length].
  split; repeat case_decide; simplify_eq; lia.
Qed.

(** X3. The feature vector of a profile has eight entries, does not
    depend on the order of the history, and counts each event at most once
    among the moods and at most once among the activities. *)
Theorem feature_order_independent (p q : UserProfile.t) :
  UserProfile.listening_history p ≡ₚ UserProfile.listening_history q →
  feature p = feature q
  ∧ length (feature p) = 8
  ∧ foldr Nat.add 0 (take 5 (feature p)) ≤ length (UserProfile.listening_history p)
  ∧ foldr Nat.add 0 (drop 5 (feature p)) ≤ length (UserProfile.listening_history p).
Proof.
  intros Hperm. rewrite !feature_counts. unfold feature_vector, count_vector. cbn.
  rewrite !(count_Permutation _ _ _ (fmap_Permutation HistoryEvent.mood _ _ Hperm)).
  rewrite !(count_Permutation _ _ _ (fmap_Permutation HistoryEvent.activity _ _ Hperm)).
  split; [done|]. split; [done|]. rewrite Hperm.
  destruct (enumerated_counts_le (HistoryEvent.mood <$> UserProfile.listening_history q))
    as [Hm _].
  destruct (enumerated_counts_le (HistoryEvent.activity <$> UserProfile.listening_history q))
    as [_ Ha].
  rewrite length_fmap in Hm, Ha. split; lia.
Qed.

Lemma feature_order_independent_sample :
  [ HistoryEvent.mk "happy" "Queen" "party"; HistoryEvent.mk "sad" "Adele" "study" ]
  ≡ₚ [ HistoryEvent.mk "sad" "Adele" "study"; HistoryEvent.mk "happy" "Queen" "party" ]
  ∧ feature (UserProfile.mk "" "" [ HistoryEvent.mk "happy" "Queen" "party";
                                    HistoryEvent.mk "sad" "Adele" "study" ] [] 0)
    = feature (UserProfile.mk "" "" [ HistoryEvent.mk "sad" "Adele" "study";
                                      HistoryEvent.mk "happy" "Queen" "party" ] [stronger] 1).
Proof.
  assert (Hperm :
    [ HistoryEvent.mk "happy" "Queen" "party"; HistoryEvent.mk "sad" "Adele" "study" ]
    ≡ₚ [ HistoryEvent.mk "sad" "Adele" "study"; HistoryEvent.mk "happy" "Queen" "party" ])
    by apply Permutation_swap.
  split; [exact Hperm|].
  exact (proj1 (feature_order_independent
                  (UserProfile.mk "" "" _ [] 0) (UserProfile.mk "" "" _ [stronger] 1) Hperm)).
Defined.

Lemma catalog_moods_have_two_songs :
  Forall (λ song,
            length (filter (λ song', Song.mood song' = Song.mood song) songs_dataset) = 2)
         songs_dataset.
Proof. apply (bool_decide_unpack _). by vm_compute. Qed.

Lemma songs_of_mood_at_most_two f :
  length (filter (λ song, Song.mood song = f) songs_dataset) ≤ 2.
Proof.
  destruct (filter (λ song, Song.mood song = f) songs_dataset) as [|song rest] eqn:E;
    [cbn; lia|].
  assert (Hin : song ∈ filter (λ song, Song.mood song = f) songs_dataset) by (rewrite E; left).
  apply list_elem_of_filter in Hin as [<- Hcat].
  rewrite <- E. clear E.
  pose proof (proj1 (Forall_forall _ _) catalog_moods_have_two_songs song Hcat) as H2.
  cbn beta in H2. rewrite H2. done.
Qed.

(** X4. The playlist is a part of the catalog in catalog order, its songs
    share one mood and there are at most two of them, so the cut at ten
    never applies.  When the events of a history that is not empty were
    all recorded for catalog songs, as the recommendation page records
    them, the playlist has exactly two songs. *)
Theorem playlist_of_the_catalog (user_profile : UserProfile.t) :
  ∃ playlist,
    create_personalized_playlist user_profile = (Return playlist, user_profile)
    ∧ playlist `sublist_of` songs_dataset
    ∧ (∃ m, Forall (λ song, Song.mood song = m) playlist)
    ∧ length playlist ≤ 2
    ∧ (Forall from_catalog (UserProfile.listening_history user_profile) →
       UserProfile.listening_history user_profile ≠ [] →
       length playlist = 2).
Proof.
  destruct (decide (UserProfile.listening_history user_profile = [])) as [Hnil|Hne].
  - exists []. split.
    { unfold create_personalized_playlist, py_bind, py_get. by rewrite bool_decide_eq_true_2. }
    split; [apply sublist_nil_l|]. split; [by exists ""|]. split; [cbn; lia|]. done.
  - destruct (most_common_1_favorite
                (HistoryEvent.mood <$> UserProfile.listening_history user_profile))
      as (f & n & _ & Hfav); [by destruct (UserProfile.listening_history user_profile)|].
    eexists. split; [by apply create_personalized_playlist_run|].
    pose proof (songs_of_mood_at_most_two f) as Hle.
    rewrite take_ge by lia.
    split; [apply sublist_filter|]. split.
    { exists f. apply Forall_forall. by intros song [? _]%list_elem_of_filter. }
    split; [done|]. intros Hcat _.
    destruct Hfav as [Hin _].
    apply list_elem_of_fmap in Hin as (h & -> & Hh).
    pose proof (proj1 (Forall_forall _ _) Hcat h Hh) as Hfrom.
    apply list_elem_of_fmap in Hfrom as (song & -> & Hsong).
    exact (proj1 (Forall_forall _ _) catalog_moods_have_two_songs song Hsong).
Qed.

(** ** The pages, branch by branch *)

Ltac py_run :=
  cbv [py_bind py_get py_ret py_raise py_modify py_lift on_users at_key save_users st
       set_page set_users set_files set_session_username
       page users session_username files str_username].

Lemma py_for_ext {S A} (xs : list A) (body body' : A → Py S unit) :
  (∀ x, body x = body' x) → py_for xs body = py_for xs body'.
Proof. intros Hext. induction xs as [|x xs IH]; [done|]. cbn. by rewrite Hext, IH. Qed.

(** X5. Logging in with a name of the store opens the session and reruns
    the script; with any other name the page reports that the name was not
    found and the session stays closed.  Neither changes store or file. *)
Theorem login_known_or_unknown (ws : widgets) (w : world) :
  w_login_choice ws = Login →
  w_button ws "Login" = true →
  let username := w_text_input ws in
  (username ∈ dict_keys (users w) →
     ∃ w', login ws w = (Raise RerunException, w')
       ∧ session_username w' = Some username
       ∧ users w' = users w ∧ files w' = files w
       ∧ page w' = page w ++ [st_title "Login or Register";
                               st_success ("Welcome back " +:+ username +:+ "!")])
  ∧ (username ∉ dict_keys (users w) →
     ∃ w', login ws w = (Return tt, w')
       ∧ session_username w' = session_username w
       ∧ users w' = users w ∧ files w' = files w
       ∧ page w' = page w ++ [st_title "Login or Register";
                               st_error "Username not found."]).
Proof.
  intros Hchoice Hbutton username. unfold login. rewrite Hchoice, Hbutton. fold username.
  destruct w as [fs session store pg]. py_run. split; intros Hin.
  - rewrite <- dict_get_is_Some in Hin. unfold dict_contains.
    rewrite bool_decide_eq_true_2 by done.
    eexists. split; [done|]. cbn. by rewrite <- app_assoc.
  - rewrite <- dict_get_is_Some in Hin. unfold dict_contains.
    rewrite bool_decide_eq_false_2 by done.
    eexists. split; [done|]. cbn. by rewrite <- app_assoc.
Qed.

Lemma login_known_or_unknown_sample :
  w_login_choice (sample_widgets Login "bob" Home) = Login
  ∧ w_button (sample_widgets Login "bob" Home) "Login" = true
  ∧ session_username (login (sample_widgets Login "bob" Home)
                        (set_session_username None sample_world)).2 = Some "bob"
  ∧ session_username (login (sample_widgets Login "zoe" Home)
                        (set_session_username None sample_world)).2 = None.
Proof.
  split; [reflexivity|]. split; [reflexivity|].
  destruct (login_known_or_unknown (sample_widgets Login "bob" Home)
              (set_session_username None sample_world) eq_refl eq_refl) as [Hknown _].
  destruct (login_known_or_unknown (sample_widgets Login "zoe" Home)
              (set_session_username None sample_world) eq_refl eq_refl) as [_ Hunknown].
  destruct Hknown as (w1 & Hrun1 & Hs1 & _).
  { apply (bool_decide_unpack _). by vm_compute. }
  destruct Hunknown as (w2 & Hrun2 & Hs2 & _).
  { apply (bool_decide_unpack _). by vm_compute. }
  rewrite Hrun1, Hrun2. cbn [snd]. rewrite Hs1, Hs2. split; reflexivity.
Defined.

(** One run of the recommendation page with the button pressed. *)
Lemma main_app_get_recommendations ws rnd fit_predict w username profile recs :
  session_username w = Some username →
  dict_get (users w) username = Some profile →
  w_menu ws = GetRecommendations →
  w_button ws "Recommend Songs" = true →
  recommend_songs rnd (w_mood ws) (w_activity ws) = Return recs →
  main_app ws rnd fit_predict w
  = (Return tt,
     let greeting := [ st_sidebar_title ("Welcome, " +:+ username +:+ "!");
                       st_header "Get Song Recommendations" ] in
     if py_bool recs then
       let stored :=
         dict_set (users w) username
           (UserProfile.set_listening_history
              (UserProfile.listening_history profile ++ (event_of_song <$> recs)) profile) in
       World (<[USERS_FILE := users_to_json stored]> (files w)) (Some username) stored
             (page w ++ greeting ++ [st_success "Recommended Songs:"]
                ++ ((λ song, st_write (song_line song)) <$> recs))
     else
       World (files w) (Some username) (users w)
             (page w ++ greeting ++ [st_warning "No matching songs found."])).
Proof.
  destruct w as [fs session store pg].
  cbn [session_username users page files]. intros -> Hget Hmenu Hbutton Hrecs.
  unfold main_app. rewrite Hmenu, Hbutton, Hrecs. py_run.
  destruct recs as [|song recs]; cbv [py_bool].
  - by rewrite <- !app_assoc.
  - change (py_for (song :: recs) ?body)
      with (py_for (song :: recs) (λ song, st (st_write (song_line song)))).
    rewrite py_for_st. cbv [set_page page users session_username files].
    rewrite Hget, update_habits_run. by rewrite <- !app_assoc.
Qed.

(** X6. The recommendation page, with its button pressed by a logged-in
    user of the store: the songs recommended are recorded at the end of
    that user's history, in the order shown, and the store is written to
    the file; when nothing matches the page warns and store and file stay
    as they were. *)
Theorem get_recommendations_records (ws : widgets) (rnd : random_source)
    (fit_predict : kmeans) (w : world) (username : string) (profile : UserProfile.t) :
  session_username w = Some username →
  dict_get (users w) username = Some profile →
  w_menu ws = GetRecommendations →
  w_button ws "Recommend Songs" = true →
  ∃ recs w',
    recommend_songs rnd (w_mood ws) (w_activity ws) = Return recs
    ∧ main_app ws rnd fit_predict w = (Return tt, w')
    ∧ session_username w' = session_username w
    ∧ (recs ≠ [] →
       users w'
       = dict_set (users w) username
           (UserProfile.set_listening_history
              (UserProfile.listening_history profile ++ (event_of_song <$> recs)) profile)
       ∧ persisted w')
    ∧ (recs = [] →
       users w' = users w ∧ files w' = files w
       ∧ page w' = page w ++ [ st_sidebar_title ("Welcome, " +:+ username +:+ "!");
                               st_header "Get Song Recommendations";
                               st_warning "No matching songs found." ]).
Proof.
  intros Hsession Hget Hmenu Hbutton. eexists _, _.
  split; [apply recommend_songs_returns|].
  split; [by eapply main_app_get_recommendations, recommend_songs_returns|].
  destruct (sample_loop _ _ _ _ _) as [|song recs]; cbn [py_bool session_username users files page].
  - split; [done|]. split; [done|]. by intros _.
  - split; [done|]. split; [|done]. intros _. split; [done|]. apply lookup_insert_eq.
Qed.

Lemma get_recommendations_records_sample :
  session_username sample_world = Some "ann"
  ∧ dict_get (users sample_world) "ann"
    = Some (UserProfile.mk "" "" [event_of_song stronger] [stronger] 2)
  ∧ w_menu (sample_widgets Login "" GetRecommendations) = GetRecommendations
  ∧ w_button (sample_widgets Login "" GetRecommendations) "Recommend Songs" = true
  ∧ ∃ recs, recommend_songs (λ _, 0) "motivational" "gym" = Return recs ∧ length recs = 2.
Proof.
  split; [reflexivity|]. split; [reflexivity|]. split; [reflexivity|]. split; [reflexivity|].
  destruct (get_recommendations_records (sample_widgets Login "" GetRecommendations)
              (λ _, 0) parity_kmeans sample_world "ann"
              (UserProfile.mk "" "" [event_of_song stronger] [stronger] 2)
              eq_refl eq_refl eq_refl eq_refl) as (recs & w' & Hrecs & _).
  exists recs. split; [exact Hrecs|].
  vm_compute in Hrecs. injection Hrecs as <-. reflexivity.
Defined.

(** *** The Public Playlists page *)

Lemma dict_get_middle {V} (pre rest : list (string * V)) u p :
  u ∉ pre.*1 → dict_get (pre ++ (u, p) :: rest) u = Some p.
Proof.
  induction pre as [|[k v] pre IH]; cbn.
  - intros _. by rewrite decide_True.
  - rewrite not_elem_of_cons. intros [Hne Hpre]. rewrite decide_False by done. by apply IH.
Qed.

Lemma dict_set_middle {V} (pre rest : list (string * V)) u p p' :
  u ∉ pre.*1 → dict_set (pre ++ (u, p) :: rest) u p' = pre ++ (u, p') :: rest.
Proof.
  induction pre as [|[k v] pre IH]; cbn.
  - intros _. by rewrite decide_True.
  - rewrite not_elem_of_cons. intros [Hne Hpre]. rewrite decide_False by done.
    by rewrite IH.
Qed.

Lemma like_update_fst ws me item : (like_update ws me item).1 = item.1.
Proof. unfold like_update. by destruct (liked ws me item). Qed.

Lemma like_update_keys ws me (us : list (string * UserProfile.t)) :
  (like_update ws me <$> us).*1 = us.*1.
Proof.
  rewrite <- list_fmap_compose. apply list_fmap_ext. intros i item _. apply like_update_fst.
Qed.

Lemma like_update_none ws me (us : list (string * UserProfile.t)) :
  existsb (liked ws me) us = false → like_update ws me <$> us = us.
Proof.
  induction us as [|item us IH]; [done|]. cbn.
  intros [Hitem Hus]%orb_false_iff. rewrite IH by done.
  unfold like_update. by rewrite Hitem.
Qed.

(** One pass of the loop body over the entry of [u]. *)
Lemma public_playlists_entry_run ws me fs session pre u p rest pg :
  u ∉ pre.*1 →
  ∃ pg',
    public_playlists_entry ws me u (World fs session (pre ++ (u, p) :: rest) pg)
    = (Return tt,
       World (if liked ws me (u, p)
              then <[USERS_FILE := users_to_json (pre ++ like_update ws me (u, p) :: rest)]> fs
              else fs)
             session (pre ++ like_update ws me (u, p) :: rest) pg').
Proof.
  intros Hfresh. unfold public_playlists_entry, like_update, liked, like_label. py_run.
  cbn [fst snd]. rewrite (dict_get_middle pre rest u p Hfresh).
  rewrite (dict_set_middle pre rest u p p Hfresh).
  destruct (bool_decide (Some u ≠ me)); cbn [andb]; [|by eexists].
  destruct (UserProfile.playlists p) as [|song playlist] eqn:Hpl; cbv [py_bool]; cbn [andb];
    [by eexists|].
  change (py_for (song :: playlist) ?body)
    with (py_for (song :: playlist) (λ song, st (st_write (song_line song)))).
  rewrite py_for_st. cbv [set_page page users session_username files].
  destruct (w_button ws _); [|by eexists].
  rewrite (dict_get_middle pre rest u p Hfresh).
  rewrite (dict_set_middle pre rest u p _ Hfresh). by eexists.
Qed.

Lemma public_playlists_loop ws me session rest :
  ∀ pre fs pg,
    NoDup (pre ++ rest).*1 →
    ∃ pg',
      py_for rest.*1 (public_playlists_entry ws me) (World fs session (pre ++ rest) pg)
      = (Return tt,
         World (if existsb (liked ws me) rest
                then <[USERS_FILE := users_to_json (pre ++ (like_update ws me <$> rest))]> fs
                else fs)
               session (pre ++ (like_update ws me <$> rest)) pg').
Proof.
  induction rest as [|[u p] rest IH]; intros pre fs pg Hnd.
  { cbn. by eexists. }
  assert (Hfresh : u ∉ pre.*1).
  { rewrite fmap_app in Hnd. apply NoDup_app in Hnd as (_ & Hdisj & _).
    intros Hin. apply (Hdisj _ Hin). cbn. left. }
  destruct (public_playlists_entry_run ws me fs session pre u p rest pg Hfresh) as [pg1 Hentry].
  cbn [fmap list_fmap fst]. change (py_for (u :: ?l) ?b) with (b u ;; py_for l b).
  unfold py_bind at 1. rewrite Hentry.
  rewrite (cons_middle _ pre rest), app_assoc.
  edestruct (IH (pre ++ [like_update ws me (u, p)])) as [pg2 Hloop].
  { rewrite !fmap_app, fmap_cons, like_update_fst. cbn.
    rewrite <- app_assoc. cbn. by rewrite fmap_app in Hnd. }
  rewrite Hloop. exists pg2. f_equal. rewrite <- !app_assoc. cbn [app existsb].
  f_equal. destruct (liked ws me (u, p)); cbn [orb].
  - destruct (existsb (liked ws me) rest) eqn:Hrest.
    + by rewrite insert_insert_eq.
    + by rewrite like_update_none.
  - done.
Qed.

(** One run of the Public Playlists page on a store with distinct names. *)
Lemma main_app_public_playlists ws rnd fit_predict w :
  dict_wf (users w) →
  w_menu ws = PublicPlaylists →
  ∃ pg',
    main_app ws rnd fit_predict w
    = (Return tt,
       World (if existsb (liked ws (session_username w)) (users w)
              then <[USERS_FILE :=
                       users_to_json (like_update ws (session_username w) <$> users w)]>
                     (files w)
              else files w)
             (session_username w)
             (like_update ws (session_username w) <$> users w) pg').
Proof.
  intros Hwf Hmenu. destruct w as [fs session store pg]. unfold main_app. rewrite Hmenu.
  cbn [session_username users files].
  unfold py_bind at 1, py_get at 1. cbn [session_username users].
  unfold py_bind at 1, st at 1, py_modify at 1.
  unfold py_bind at 1, st at 1, py_modify at 1.
  cbn [set_page page files session_username users].
  destruct (public_playlists_loop ws session session store [] fs
              ((pg ++ [st_sidebar_title ("Welcome, " +:+ str_username session +:+ "!")])
                 ++ [st_header "Public Playlists"]) Hwf) as [pg' Hloop].
  exists pg'. etrans; [exact Hloop|reflexivity].
Qed.

Lemma dict_get_like_update ws me (us : list (string * UserProfile.t)) u :
  dict_get (like_update ws me <$> us) u
  = (λ p, (like_update ws me (u, p)).2) <$> dict_get us u.
Proof.
  induction us as [|[k p] us IH]; [done|]. cbn [fmap list_fmap dict_get].
  pose proof (like_update_fst ws me (k, p)) as Hk. cbn in Hk.
  destruct (like_update ws me (k, p)) as [k' p'] eqn:E. cbn in Hk. subst k'.
  destruct (decide (k = u)) as [->|Hne]; [|done]. cbn. by rewrite E.
Qed.



(** *** Pages that read *)

Lemma cluster_users_frame fit_predict users :
  ∃ result, cluster_users fit_predict users = (Return result, users).
Proof.
  unfold cluster_users, py_bind, py_get. case_bool_decide; [by eexists|].
  destruct (cluster_inputs users). by eexists.
Qed.

Lemma cluster_line_for result w :
  py_for result (λ '(username, cluster_id),
    st (st_write ("**" +:+ username +:+ "** is in Cluster **"
                   +:+ pretty (cluster_id : nat) +:+ "**"))) w
  = (Return tt,
     set_page (page w ++ ((λ item : string * nat,
                  st_write ("**" +:+ item.1 +:+ "** is in Cluster **"
                             +:+ pretty item.2 +:+ "**")) <$> result)) w).
Proof.
  rewrite <- py_for_st. apply (f_equal (λ f, f w)). apply py_for_ext.
  by intros [username cluster_id].
Qed.

(** One run of a page that shows without storing. *)
Lemma main_app_read_only ws rnd fit_predict w :
  w_menu ws = Home ∨ w_menu ws = ClusterUsers ∨ w_menu ws = Feedback →
  ∃ pg', main_app ws rnd fit_predict w
         = (Return tt, World (files w) (session_username w) (users w) pg').
Proof.
  destruct w as [fs session store pg]. unfold main_app.
  intros [->| [->| ->]]; cbn [session_username users files].
  - py_run. by eexists.
  - destruct (cluster_users_frame fit_predict store) as [result Hresult].
    unfold py_bind at 1, py_get at 1. unfold py_bind at 1, st at 1, py_modify at 1.
    unfold py_bind at 1, st at 1, py_modify at 1.
    unfold py_bind at 1, on_users at 1. cbn [set_page users]. rewrite Hresult.
    destruct result as [|item result]; cbv [py_bool].
    + py_run. by eexists.
    + rewrite cluster_line_for. py_run. by eexists.
  - py_run. destruct (w_button ws "Submit Feedback"); by eexists.
Qed.

(** X8. The Home, Cluster Users and Feedback pages only show: whatever
    the widgets, the generator and the clustering return, the page ends
    without an exception and store, file and session are as before. *)
Theorem read_only_pages (ws : widgets) (rnd : random_source) (fit_predict : kmeans)
    (w : world) :
  w_menu ws = Home ∨ w_menu ws = ClusterUsers ∨ w_menu ws = Feedback →
  ∃ w', main_app ws rnd fit_predict w = (Return tt, w')
    ∧ users w' = users w ∧ files w' = files w
    ∧ session_username w' = session_username w
    ∧ page w `prefix_of` page w'.
Proof.
  intros Hmenu. destruct w as [fs session store pg]. unfold main_app.
  cbn [session_username users files page].
  destruct Hmenu as [->| [->| ->]].
  - py_run. eexists. split; [done|]. cbn. repeat split.
    repeat apply prefix_app_r. done.
  - destruct (cluster_users_frame fit_predict store) as [result Hresult].
    unfold py_bind at 1, py_get at 1. unfold py_bind at 1, st at 1, py_modify at 1.
    unfold py_bind at 1, st at 1, py_modify at 1.
    unfold py_bind at 1, on_users at 1. cbn [set_page users]. rewrite Hresult.
    destruct result as [|item result]; cbv [py_bool].
    + py_run. eexists. split; [done|]. cbn. repeat split.
      repeat apply prefix_app_r. done.
    + rewrite cluster_line_for. py_run. eexists. split; [done|]. cbn. repeat split.
      repeat apply prefix_app_r. done.
  - py_run. destruct (w_button ws "Submit Feedback"); eexists; (split; [done|]);
      cbn; repeat split; repeat apply prefix_app_r; done.
Qed.

Lemma read_only_pages_sample :
  (w_menu (sample_widgets Login "" ClusterUsers) = Home
   ∨ w_menu (sample_widgets Login "" ClusterUsers) = ClusterUsers
   ∨ w_menu (sample_widgets Login "" ClusterUsers) = Feedback)
  ∧ users (main_app (sample_widgets Login "" ClusterUsers) (λ _, 0) parity_kmeans
             sample_world).2 = sample_users.
Proof.
  assert (Hmenu : w_menu (sample_widgets Login "" ClusterUsers) = Home
                  ∨ w_menu (sample_widgets Login "" ClusterUsers) = ClusterUsers
                  ∨ w_menu (sample_widgets Login "" ClusterUsers) = Feedback)
    by (right; left; reflexivity).
  split; [exact Hmenu|].
  destruct (read_only_pages (sample_widgets Login "" ClusterUsers) (λ _, 0) parity_kmeans
              sample_world Hmenu) as (w' & Hrun & Husers & _).
  rewrite Hrun. exact Husers.
Defined.

(** *** A session whose user is not in the store *)

Lemma on_users_at_key_missing {A} (k : option string) (m : Py UserProfile.t A) w :
  k ≫= dict_get (users w) = None →
  on_users (at_key k m) w = (Raise KeyError, w).
Proof.
  destruct w as [fs session store pg]. unfold on_users, at_key. cbn [users].
  destruct k as [key|]; cbn; [|done]. by intros ->.
Qed.

(** X9. When the session names a user who is not in the store (the file
    was removed or replaced between two runs), the My Playlist page raises
    [KeyError], and so does the recommendation page after it has shown the
    songs it found; store and file are left as they were. *)
Theorem pages_raise_without_profile (ws : widgets) (rnd : random_source)
    (fit_predict : kmeans) (w : world) :
  session_username w ≫= dict_get (users w) = None →
  (w_menu ws = MyPlaylist →
     ∃ w', main_app ws rnd fit_predict w = (Raise KeyError, w')
       ∧ users w' = users w ∧ files w' = files w
       ∧ session_username w' = session_username w)
  ∧ (w_menu ws = GetRecommendations →
     w_button ws "Recommend Songs" = true →
     matching_songs (w_mood ws) (w_activity ws) ≠ [] →
     ∃ w' recs, main_app ws rnd fit_predict w = (Raise KeyError, w')
       ∧ recommend_songs rnd (w_mood ws) (w_activity ws) = Return recs
       ∧ users w' = users w ∧ files w' = files w
       ∧ session_username w' = session_username w
       ∧ Forall (λ song, st_write (song_line song) ∈ page w') recs).
Proof.
  intros Hmissing. split.
  - intros Hmenu. unfold main_app. rewrite Hmenu.
    unfold py_bind at 1, py_get at 1. unfold py_bind at 1, st at 1, py_modify at 1.
    unfold py_bind at 1, st at 1, py_modify at 1.
    unfold py_bind at 1. rewrite on_users_at_key_missing by (by destruct w).
    eexists. split; [done|]. by destruct w.
  - intros Hmenu Hbutton Hmatch. unfold main_app. rewrite Hmenu, Hbutton.
    rewrite recommend_songs_returns.
    pose proof (sample_loop_length rnd (length (matching_songs (w_mood ws) (w_activity ws)))
                  (matching_songs (w_mood ws) (w_activity ws)) 0
                  (min 5 (length (matching_songs (w_mood ws) (w_activity ws))))
                  eq_refl ltac:(lia)) as Hlen.
    destruct (sample_loop _ _ _ _ _) as [|song recs] eqn:Hrecs.
    { destruct (matching_songs (w_mood ws) (w_activity ws)); [done|]. cbn in Hlen. lia. }
    unfold py_bind at 1, py_get at 1. unfold py_bind at 1, st at 1, py_modify at 1.
    unfold py_bind at 1, st at 1, py_modify at 1.
    unfold py_bind at 1, py_lift at 1. cbv [py_bool].
    unfold py_bind at 1, st at 1, py_modify at 1.
    unfold py_bind at 1. rewrite py_for_st.
    unfold py_bind at 1. rewrite on_users_at_key_missing by (by destruct w).
    eexists _, _. split; [done|]. split; [done|]. destruct w as [fs session store pg].
    cbn [users files session_username page set_page]. repeat split.
    apply Forall_forall. intros s Hs. apply elem_of_app. right.
    apply list_elem_of_fmap. by exists s.
Qed.

Lemma pages_raise_without_profile_sample :
  session_username (World ∅ (Some "ann") [] []) ≫= dict_get (users (World ∅ (Some "ann") [] []))
  = None
  ∧ (main_app (sample_widgets Login "" MyPlaylist) (λ _, 0) parity_kmeans
       (World ∅ (Some "ann") [] [])).1 = Raise KeyError.
Proof.
  split; [reflexivity|].
  destruct (pages_raise_without_profile (sample_widgets Login "" MyPlaylist) (λ _, 0)
              parity_kmeans (World ∅ (Some "ann") [] []) eq_refl) as [Hplaylist _].
  destruct (Hplaylist eq_refl) as (w' & Hrun & _).
  rewrite Hrun. reflexivity.
Defined.

(** ** What a run keeps *)

Lemma profile_grows_refl p : profile_grows p p.
Proof. repeat split; done. Qed.

Lemma profile_grows_history p events :
  profile_grows p (UserProfile.set_listening_history
                     (UserProfile.listening_history p ++ events) p).
Proof. repeat split; cbn; [by apply prefix_app_r|done]. Qed.

Lemma profile_grows_playlists p playlist :
  profile_grows p (UserProfile.set_playlists playlist p).
Proof. repeat split; done. Qed.

Lemma profile_grows_likes p :
  profile_grows p (UserProfile.set_likes (UserProfile.likes p + 1)%Z p).
Proof. repeat split; cbn; [done|lia]. Qed.

Lemma store_grows_refl us : store_grows us us.
Proof. intros u. destruct (dict_get us u); [apply profile_grows_refl|done]. Qed.

Lemma store_grows_set (us : list (string * UserProfile.t)) k p p' :
  dict_get us k = Some p → profile_grows p p' → store_grows us (dict_set us k p').
Proof.
  intros Hget Hgrows u. rewrite dict_get_set. destruct (decide (k = u)) as [<-|Hne].
  - by rewrite Hget.
  - destruct (dict_get us u); [apply profile_grows_refl|done].
Qed.

Lemma store_grows_register (us : list (string * UserProfile.t)) k :
  dict_get us k = None → store_grows us (dict_set us k new_profile).
Proof.
  intros Hget u. rewrite dict_get_set. destruct (decide (k = u)) as [<-|Hne].
  - rewrite Hget. apply profile_grows_refl.
  - destruct (dict_get us u); [apply profile_grows_refl|done].
Qed.

Lemma store_grows_like ws me (us : list (string * UserProfile.t)) :
  store_grows us (like_update ws me <$> us).
Proof.
  intros u. rewrite dict_get_like_update. destruct (dict_get us u) as [p|]; [|done].
  cbn. unfold like_update. destruct (liked ws me (u, p)); cbn;
    [apply profile_grows_likes|apply profile_grows_refl].
Qed.

Lemma dict_wf_set {V} (d : list (string * V)) k v : dict_wf d → dict_wf (dict_set d k v).
Proof.
  intros Hwf. destruct (decide (k ∈ dict_keys d)) as [Hin|Hin].
  - unfold dict_wf. by rewrite dict_keys_set_present.
  - rewrite dict_set_fresh by done. unfold dict_wf, dict_keys in *. rewrite fmap_app. cbn.
    apply NoDup_app. split; [done|]. split; [|apply NoDup_singleton].
    by intros y Hy ->%list_elem_of_singleton.
Qed.

Lemma dict_of_pairs_is_wf {V} (l : list (string * V)) : dict_wf (dict_of_pairs l).
Proof.
  unfold dict_of_pairs.
  enough (∀ acc : list (string * V), dict_wf acc →
            dict_wf (foldl (λ d kv, dict_set d kv.1 kv.2) acc l)) as Hgen
    by (apply Hgen; constructor).
  induction l as [|[k v] l IH]; intros acc Hacc; [done|]. cbn. by apply IH, dict_wf_set.
Qed.

(** A store read from a document has distinct user names. *)
Lemma users_of_json_wf document us : users_of_json document = Some us → dict_wf us.
Proof.
  unfold users_of_json. destruct document; try done. cbn.
  intros Hmap%mapM_Some_1.
  assert (Hkeys : us.*1 = (dict_of_pairs members).*1).
  { induction Hmap as [|[k j] [k' p] l l' Hitem _ IH]; [done|]. cbn in *.
    destruct (profile_of_json j); cbn in Hitem; [|done]. injection Hitem as <- _.
    by rewrite IH. }
  unfold dict_wf, dict_keys. rewrite Hkeys. apply dict_of_pairs_is_wf.
Qed.

Lemma in_sync_step w w' : in_sync w → store_step w w' → in_sync w'.
Proof.
  intros [Hwf Hload] [[Husers Hfiles]|(_ & Hwf' & Hfiles)]; split.
  - by rewrite Husers.
  - revert Hload. unfold load_users, py_bind, py_get, py_ret, py_raise.
    rewrite Husers, Hfiles. destruct (files w !! USERS_FILE) as [document|].
    + destruct (users_of_json document); [|done]. by intros [= ->].
    + by intros [= <-].
  - by apply Hwf'.
  - unfold load_users, py_bind, py_get, py_ret. rewrite Hfiles, lookup_insert_eq.
    by rewrite users_of_to_json by by apply Hwf'.
Qed.

Lemma store_step_grows w w' : store_step w w' → store_grows (users w) (users w').
Proof. intros [[-> _]|[Hgrows _]]; [apply store_grows_refl|done]. Qed.

Lemma login_step ws w : store_step w (login ws w).2.
Proof.
  destruct w as [fs session store pg]. unfold login.
  destruct (w_login_choice ws).
  - destruct (w_button ws "Login"); py_run; [|by left].
    destruct (dict_contains store (w_text_input ws)); by left.
  - destruct (w_button ws "Register"); py_run; [|by left].
    destruct (dict_contains store (w_text_input ws)) eqn:Hin; [by left|].
    right. cbn [snd users files]. split; [|split; [|done]].
    + apply store_grows_register. apply dict_get_None. by apply dict_contains_false.
    + apply dict_wf_set.
Qed.

Lemma main_app_without_profile ws rnd fit_predict w :
  session_username w ≫= dict_get (users w) = None →
  w_menu ws = MyPlaylist ∨ w_menu ws = GetRecommendations →
  ∃ r pg', main_app ws rnd fit_predict w
           = (r, World (files w) (session_username w) (users w) pg').
Proof.
  destruct w as [fs session store pg]. cbn [session_username users files].
  intros Hmissing Hmenu. unfold main_app.
  unfold py_bind at 1, py_get at 1. unfold py_bind at 1, st at 1, py_modify at 1.
  destruct Hmenu as [->| ->].
  - unfold py_bind at 1, st at 1, py_modify at 1.
    unfold py_bind at 1. rewrite on_users_at_key_missing by done. by eexists _, _.
  - unfold py_bind at 1, st at 1, py_modify at 1.
    destruct (w_button ws "Recommend Songs"); [|by eexists _, _].
    rewrite recommend_songs_returns. unfold py_bind at 1, py_lift at 1.
    destruct (sample_loop _ _ _ _ _) as [|song recs]; cbv [py_bool]; [by eexists _, _|].
    unfold py_bind at 1, st at 1, py_modify at 1.
    unfold py_bind at 1. rewrite py_for_st.
    unfold py_bind at 1. rewrite on_users_at_key_missing by done. by eexists _, _.
Qed.

Lemma main_app_step ws rnd fit_predict w :
  dict_wf (users w) → store_step w (main_app ws rnd fit_predict w).2.
Proof.
  intros Hwf. destruct (w_menu ws) eqn:Hmenu.
  - destruct (main_app_read_only ws rnd fit_predict w) as [pg' ->]; [by left|]. by left.
  - destruct (session_username w ≫= dict_get (users w)) as [profile|] eqn:Hprofile;
      [|destruct (main_app_without_profile ws rnd fit_predict w Hprofile) as (r & pg' & ->);
        [by right|by left]].
    destruct (session_username w) as [username|] eqn:Hsession; [|done]. cbn in Hprofile.
    destruct (w_button ws "Recommend Songs") eqn:Hbutton.
    + rewrite (main_app_get_recommendations ws rnd fit_predict w username profile _
                 Hsession Hprofile Hmenu Hbutton (recommend_songs_returns _ _ _)).
      destruct (sample_loop _ _ _ _ _) as [|song recs]; cbn [py_bool snd]; [by left|].
      right. cbn [users files]. split; [|split; [|done]].
      * by apply (store_grows_set _ _ profile), profile_grows_history.
      * intros _. by apply dict_wf_set.
    + left. unfold main_app. rewrite Hmenu, Hbutton. by destruct w.
  - destruct (session_username w ≫= dict_get (users w)) as [profile|] eqn:Hprofile;
      [|destruct (main_app_without_profile ws rnd fit_predict w Hprofile) as (r & pg' & ->);
        [by left|by left]].
    destruct (session_username w) as [username|] eqn:Hsession; [|done]. cbn in Hprofile.
    destruct (create_personalized_playlist_frame profile profile eq_refl)
      as (playlist & Hrun & _).
    rewrite (main_app_my_playlist ws rnd fit_predict w username profile playlist
               Hsession Hprofile Hmenu Hrun).
    destruct playlist as [|song playlist]; cbn [py_bool snd]; [by left|].
    right. cbn [users files]. split; [|split; [|done]].
    + by apply (store_grows_set _ _ profile), profile_grows_playlists.
    + intros _. by apply dict_wf_set.
  - destruct (main_app_public_playlists ws rnd fit_predict w Hwf Hmenu) as [pg' ->].
    cbn [snd]. destruct (existsb _ _) eqn:Hany.
    + right. cbn [users files]. split; [apply store_grows_like|]. split; [|done].
      intros _. unfold dict_wf, dict_keys. by rewrite like_update_keys.
    + left. cbn [users files]. by rewrite like_update_none.
  - destruct (main_app_read_only ws rnd fit_predict w) as [pg' ->]; [by right; left|]. by left.
  - destruct (main_app_read_only ws rnd fit_predict w) as [pg' ->]; [by right; right|]. by left.
  - left. unfold main_app. rewrite Hmenu. by destruct w.
Qed.

(** One run of the script from a file that is absent or holds a store. *)
Lemma app_step ws rnd fit_predict w :
  loadable w →
  ∃ loaded,
    load_users w = (Return loaded, w)
    ∧ in_sync (set_users loaded w)
    ∧ store_step (set_users loaded w) (app ws rnd fit_predict w).2.
Proof.
  intros Hload. unfold loadable in Hload.
  assert (∃ loaded, load_users w = (Return loaded, w) ∧ dict_wf loaded) as (loaded & Hrun & Hwf).
  { unfold load_users, py_bind, py_get, py_ret.
    destruct (files w !! USERS_FILE) as [document|]; [|exists []; split; [done|constructor]].
    destruct Hload as [loaded Hdoc]. rewrite Hdoc. exists loaded. split; [done|].
    by eapply users_of_json_wf. }
  exists loaded. split; [done|]. split.
  - split; [done|]. revert Hrun. unfold load_users, py_bind, py_get, py_ret, py_raise.
    cbn [files set_users users]. destruct (files w !! USERS_FILE) as [document|].
    + destruct (users_of_json document); [|done]. by intros [= ->].
    + by intros [= <-].
  - unfold app. unfold py_bind at 1. rewrite Hrun.
    unfold py_bind at 1, py_modify at 1. unfold py_bind at 1, py_get at 1.
    case_bool_decide; [by apply main_app_step|apply login_step].
Qed.

(** X10. Whatever page runs and however it ends, a run of the script
    that starts from a file that is absent or holds a store leaves memory
    and file in agreement: the store in memory has distinct user names and
    is the store the next run loads. *)
Theorem app_keeps_in_sync (ws : widgets) (rnd : random_source) (fit_predict : kmeans)
    (w : world) :
  loadable w → in_sync (app ws rnd fit_predict w).2.
Proof.
  intros Hload. destruct (app_step ws rnd fit_predict w Hload) as (loaded & _ & Hsync & Hstep).
  by eapply in_sync_step.
Qed.

Lemma app_keeps_in_sync_sample :
  loadable sample_world
  ∧ in_sync (app (sample_widgets Login "" PublicPlaylists) (λ _, 0) parity_kmeans
               sample_world).2.
Proof.
  assert (Hload : loadable sample_world) by (by vm_compute; eexists).
  split; [exact Hload|].
  exact (app_keeps_in_sync (sample_widgets Login "" PublicPlaylists) (λ _, 0) parity_kmeans
           sample_world Hload).
Defined.

(** X11. A run of the script never removes a user, never shortens or
    rewrites a history, never lowers a like count and never touches the
    favorite mood and activity fields: every user of the store it loaded
    is in the store it leaves, with a profile that has only grown, and
    the profile of a user it added has grown from that of a
    registration. *)
Theorem app_store_grows (ws : widgets) (rnd : random_source) (fit_predict : kmeans)
    (w : world) (loaded : dict string UserProfile.t) :
  load_users w = (Return loaded, w) →
  store_grows loaded (users (app ws rnd fit_predict w).2).
Proof.
  intros Hrun.
  assert (Hload : loadable w).
  { revert Hrun. unfold loadable, load_users, py_bind, py_get, py_ret, py_raise.
    destruct (files w !! USERS_FILE) as [document|]; [|done].
    by destruct (users_of_json document). }
  destruct (app_step ws rnd fit_predict w Hload) as (loaded' & Hrun' & _ & Hstep).
  assert (loaded' = loaded) as -> by congruence.
  apply store_step_grows in Hstep. by destruct w.
Qed.

Lemma app_store_grows_sample :
  load_users sample_world = (Return sample_users, sample_world)
  ∧ store_grows sample_users
      (users (app (sample_widgets Login "" GetRecommendations) (λ _, 0) parity_kmeans
                sample_world).2).
Proof.
  assert (Hrun : load_users sample_world = (Return sample_users, sample_world))
    by (by vm_compute).
  split; [exact Hrun|].
  exact (app_store_grows (sample_widgets Login "" GetRecommendations) (λ _, 0) parity_kmeans
           sample_world sample_users Hrun).
Defined.

(** ** Sessions across runs *)

Lemma load_users_wf w loaded : load_users w = (Return loaded, w) → dict_wf loaded.
Proof.
  unfold load_users, py_bind, py_get, py_ret, py_raise.
  destruct (files w !! USERS_FILE) as [document|]; [|intros [= <-]; constructor].
  destruct (users_of_json document) eqn:Hdoc; [|done]. intros [= <-].
  by eapply users_of_json_wf.
Qed.

Lemma load_users_saved fs session other pg us :
  dict_wf us →
  load_users (World (<[USERS_FILE := users_to_json us]> fs) session other pg)
  = (Return us, World (<[USERS_FILE := users_to_json us]> fs) session other pg).
Proof.
  intros Hwf. unfold load_users, py_bind, py_get, py_ret. cbn [files].
  by rewrite lookup_insert_eq, users_of_to_json.
Qed.

(** With the session closed the script shows the login page on the store
    it loaded. *)
Lemma app_logged_out ws rnd fit_predict w loaded :
  load_users w = (Return loaded, w) →
  session_username w = None ∨ session_username w = Some "" →
  app ws rnd fit_predict w = login ws (set_users loaded w).
Proof.
  intros Hrun Hsession. unfold app. unfold py_bind at 1. rewrite Hrun.
  unfold py_bind at 1, py_modify at 1. unfold py_bind at 1, py_get at 1.
  rewrite bool_decide_eq_false_2; [done|].
  cbn [session_username set_users]. intros [Hnone Hempty]. by destruct Hsession.
Qed.

Lemma login_register_run ws w :
  w_login_choice ws = Register →
  w_button ws "Register" = true →
  w_text_input ws ∉ dict_keys (users w) →
  login ws w
  = (Raise RerunException,
     World (<[USERS_FILE := users_to_json (users w ++ [(w_text_input ws, new_profile)])]>
              (files w))
           (Some (w_text_input ws)) (users w ++ [(w_text_input ws, new_profile)])
           (page w ++ [st_title "Login or Register"; st_success "Registration successful!"])).
Proof.
  intros Hchoice Hbutton Hfresh. destruct w as [fs session store pg].
  unfold login. rewrite Hchoice, Hbutton. py_run. unfold dict_contains.
  rewrite bool_decide_eq_false_2 by (by rewrite dict_get_is_Some).
  rewrite dict_set_fresh by done. unfold new_profile. by rewrite <- app_assoc.
Qed.

Lemma login_login_run ws w :
  w_login_choice ws = Login →
  w_button ws "Login" = true →
  w_text_input ws ∈ dict_keys (users w) →
  login ws w
  = (Raise RerunException,
     World (files w) (Some (w_text_input ws)) (users w)
           (page w ++ [st_title "Login or Register";
                       st_success ("Welcome back " +:+ w_text_input ws +:+ "!")])).
Proof.
  intros Hchoice Hbutton Hin. destruct w as [fs session store pg].
  unfold login. rewrite Hchoice, Hbutton. py_run. unfold dict_contains.
  rewrite bool_decide_eq_true_2 by (by rewrite dict_get_is_Some).
  by rewrite <- app_assoc.
Qed.

Ltac prefix_tail := solve [ reflexivity | apply prefix_app_r; prefix_tail ].

Lemma login_page_title ws w :
  ∃ r w', login ws w = (r, w') ∧ page w ++ [st_title "Login or Register"] `prefix_of` page w'.
Proof.
  destruct w as [fs session store pg]. unfold login.
  destruct (w_login_choice ws).
  - destruct (w_button ws "Login"); py_run;
      [destruct (dict_contains store (w_text_input ws))|];
      eexists _, _; (split; [done|]); cbn [page]; prefix_tail.
  - destruct (w_button ws "Register"); py_run;
      [destruct (dict_contains store (w_text_input ws))|];
      eexists _, _; (split; [done|]); cbn [page]; prefix_tail.
Qed.

(** X12. A name registered in one run can log in in a later one, from
    the file alone: after the registration of a name that the loaded store
    does not have, a run that starts with a closed session and any store
    in memory, and logs in with that name, opens the session on the store
    with the new profile. *)
Theorem registered_name_logs_in_later (ws1 ws2 : widgets) (rnd : random_source)
    (fit_predict : kmeans) (w : world) (loaded other : dict string UserProfile.t)
    (pg : list st_call) :
  load_users w = (Return loaded, w) →
  session_username w = None →
  w_login_choice ws1 = Register →
  w_button ws1 "Register" = true →
  w_text_input ws1 ∉ dict_keys loaded →
  w_login_choice ws2 = Login →
  w_button ws2 "Login" = true →
  w_text_input ws2 = w_text_input ws1 →
  ∃ w1 w2,
    app ws1 rnd fit_predict w = (Raise RerunException, w1)
    ∧ app ws2 rnd fit_predict (World (files w1) None other pg) = (Raise RerunException, w2)
    ∧ session_username w2 = Some (w_text_input ws1)
    ∧ users w2 = loaded ++ [(w_text_input ws1, new_profile)]
    ∧ dict_get (users w2) (w_text_input ws1) = Some new_profile
    ∧ files w2 = files w1.
Proof.
  intros Hrun Hsession Hc1 Hb1 Hfresh Hc2 Hb2 Hname.
  pose proof (load_users_wf w loaded Hrun) as Hwf.
  assert (Hwf' : dict_wf (loaded ++ [(w_text_input ws1, new_profile)])).
  { rewrite <- (dict_set_fresh loaded _ _ Hfresh). by apply dict_wf_set. }
  destruct w as [fs session store pg0].
  eexists _, _. split.
  { rewrite (app_logged_out ws1 rnd fit_predict _ loaded Hrun) by by left.
    by apply login_register_run. }
  cbn [files users set_users].
  split.
  { rewrite (app_logged_out ws2 rnd fit_predict _ _ (load_users_saved _ _ _ _ _ Hwf'))
      by by left.
    apply login_login_run; [done..|]. cbn [users set_users]. rewrite Hname.
    unfold dict_keys. rewrite fmap_app. apply elem_of_app. right. left. }
  cbn [session_username users files set_users]. rewrite Hname.
  split; [done|]. split; [done|]. split; [|done].
  rewrite <- (dict_set_fresh loaded _ _ Hfresh). by rewrite dict_get_set, decide_True.
Qed.

Lemma registered_name_logs_in_later_sample :
  load_users (set_session_username None sample_world)
  = (Return sample_users, set_session_username None sample_world)
  ∧ ("carl" ∉ dict_keys sample_users)
  ∧ ∃ w1 w2,
      app (sample_widgets Register "carl" Home) (λ _, 0) parity_kmeans
          (set_session_username None sample_world) = (Raise RerunException, w1)
      ∧ app (sample_widgets Login "carl" Home) (λ _, 0) parity_kmeans
            (World (files w1) None [] []) = (Raise RerunException, w2)
      ∧ session_username w2 = Some "carl".
Proof.
  assert (Hrun : load_users (set_session_username None sample_world)
                 = (Return sample_users, set_session_username None sample_world))
    by (by vm_compute).
  assert (Hfresh : "carl" ∉ dict_keys sample_users)
    by (apply (bool_decide_unpack _); by vm_compute).
  split; [exact Hrun|]. split; [exact Hfresh|].
  destruct (registered_name_logs_in_later
              (sample_widgets Register "carl" Home) (sample_widgets Login "carl" Home)
              (λ _, 0) parity_kmeans (set_session_username None sample_world)
              sample_users [] [] Hrun eq_refl eq_refl eq_refl Hfresh eq_refl eq_refl eq_refl)
    as (w1 & w2 & H1 & H2 & H3 & _).
  exists w1, w2. split; [exact H1|]. split; [exact H2|exact H3].
Defined.

(** X13. Logging out closes the session and reruns the script without
    touching store or file, and the run that follows shows the login page
    whatever its widgets say. *)
Theorem logout_then_login_page (ws ws' : widgets) (rnd : random_source)
    (fit_predict : kmeans) (w : world) :
  loadable w →
  w_menu ws = Logout →
  ∃ w1,
    main_app ws rnd fit_predict w = (Raise RerunException, w1)
    ∧ session_username w1 = None
    ∧ users w1 = users w ∧ files w1 = files w
    ∧ ∃ r w2,
        app ws' rnd fit_predict w1 = (r, w2)
        ∧ page w1 ++ [st_title "Login or Register"] `prefix_of` page w2.
Proof.
  intros Hload Hmenu. destruct w as [fs session store pg].
  unfold main_app. rewrite Hmenu. py_run. eexists. split; [done|].
  cbn [session_username users files page]. repeat split.
  assert (∃ loaded, load_users (World fs None store
            (pg ++ [st_sidebar_title ("Welcome, " +:+ default "None" session +:+ "!")]))
          = (Return loaded, World fs None store
               (pg ++ [st_sidebar_title ("Welcome, " +:+ default "None" session +:+ "!")])))
    as [loaded Hrun].
  { unfold loadable in Hload. cbn [files] in Hload.
    unfold load_users, py_bind, py_get, py_ret. cbn [files].
    destruct (fs !! USERS_FILE) as [document|]; [|by eexists].
    destruct Hload as [loaded ->]. by eexists. }
  rewrite (app_logged_out ws' rnd fit_predict _ loaded Hrun) by by left.
  apply login_page_title.
Qed.

Lemma logout_then_login_page_sample :
  loadable sample_world
  ∧ w_menu (sample_widgets Login "" Logout) = Logout
  ∧ session_username
      (main_app (sample_widgets Login "" Logout) (λ _, 0) parity_kmeans sample_world).2
    = None.
Proof.
  assert (Hload : loadable sample_world) by (by vm_compute; eexists).
  split; [exact Hload|]. split; [reflexivity|].
  destruct (logout_then_login_page (sample_widgets Login "" Logout)
              (sample_widgets Login "" Home) (λ _, 0) parity_kmeans sample_world
              Hload eq_refl) as (w1 & Hrun & Hsession & _).
  rewrite Hrun. exact Hsession.
Defined.

(** X14. The empty name can be registered but not used: the registration
    stores a profile under it and writes the file, yet the session it
    opens counts as closed, so every later run shows the login page
    again. *)
Theorem empty_name_is_logged_out (ws ws' : widgets) (rnd : random_source)
    (fit_predict : kmeans) (w : world) :
  dict_wf (users w) →
  w_login_choice ws = Register →
  w_button ws "Register" = true →
  w_text_input ws = "" →
  "" ∉ dict_keys (users w) →
  ∃ w1,
    login ws w = (Raise RerunException, w1)
    ∧ session_username w1 = Some ""
    ∧ dict_get (users w1) "" = Some new_profile
    ∧ persisted w1
    ∧ ∃ r w2,
        app ws' rnd fit_predict w1 = (r, w2)
        ∧ page w1 ++ [st_title "Login or Register"] `prefix_of` page w2.
Proof.
  intros Hwf Hchoice Hbutton Hname Hfresh. destruct w as [fs session store pg].
  rewrite <- Hname in Hfresh.
  rewrite (login_register_run ws _ Hchoice Hbutton Hfresh). rewrite Hname in *.
  cbn [users files page] in *.
  assert (Hwf' : dict_wf (store ++ [("", new_profile)])).
  { rewrite <- (dict_set_fresh store _ _ Hfresh). by apply dict_wf_set. }
  eexists. split; [done|]. cbn [session_username users files page].
  split; [done|]. split.
  { rewrite <- (dict_set_fresh store _ _ Hfresh). by rewrite dict_get_set, decide_True. }
  split; [apply lookup_insert_eq|].
  rewrite (app_logged_out ws' rnd fit_predict _ _ (load_users_saved _ _ _ _ _ Hwf'))
    by by right.
  apply login_page_title.
Qed.

Lemma empty_name_is_logged_out_sample :
  dict_wf (users sample_world)
  ∧ w_login_choice (sample_widgets Register "" Home) = Register
  ∧ w_button (sample_widgets Register "" Home) "Register" = true
  ∧ w_text_input (sample_widgets Register "" Home) = ""
  ∧ ("" ∉ dict_keys (users sample_world))
  ∧ session_username (login (sample_widgets Register "" Home) sample_world).2 = Some "".
Proof.
  assert (Hwf : dict_wf (users sample_world)) by (apply (bool_decide_unpack _); by vm_compute).
  assert (Hfresh : "" ∉ dict_keys (users sample_world))
    by (apply (bool_decide_unpack _); by vm_compute).
  split; [exact Hwf|]. split; [reflexivity|]. split; [reflexivity|]. split; [reflexivity|].
  split; [exact Hfresh|].
  destruct (empty_name_is_logged_out (sample_widgets Register "" Home)
              (sample_widgets Login "" Home) (λ _, 0) parity_kmeans sample_world
              Hwf eq_refl eq_refl eq_refl Hfresh) as (w1 & Hrun & Hsession & _).
  rewrite Hrun. exact Hsession.
Defined.

(** ** From the file and back, from a recommendation to a playlist *)

(** X15. [load_users] only reads: whatever the file holds it leaves the
    world as it is; it returns the empty store when the file is absent;
    and a store it returns has distinct user names and is the store read
    back after [save_users] has written it. *)
Theorem load_users_reads (w : world) :
  ∃ r,
    load_users w = (r, w)
    ∧ (files w !! USERS_FILE = None → r = Return [])
    ∧ ∀ loaded, r = Return loaded →
        dict_wf loaded
        ∧ (save_users loaded ;; load_users) w
          = (Return loaded, set_files (<[USERS_FILE := users_to_json loaded]> (files w)) w).
Proof.
  assert (∃ r, load_users w = (r, w)) as [r Hrun].
  { unfold load_users, py_bind, py_get, py_ret, py_raise.
    destruct (files w !! USERS_FILE) as [document|]; [|by eexists].
    destruct (users_of_json document); by eexists. }
  exists r. split; [done|]. split.
  - intros Hnone. revert Hrun. unfold load_users, py_bind, py_get, py_ret.
    rewrite Hnone. by intros [= <-].
  - intros loaded ->. pose proof (load_users_wf w loaded Hrun) as Hwf. split; [done|].
    destruct w as [fs session store pg]. unfold py_bind at 1, save_users, py_modify.
    cbn [set_files files session_username users page]. by apply load_users_saved.
Qed.

Lemma recommend_songs_from_catalog rnd mood activity :
  ∃ recs,
    recommend_songs rnd mood activity = Return recs
    ∧ Forall (.∈ songs_dataset) recs
    ∧ (matching_songs mood activity ≠ [] → recs ≠ []).
Proof.
  eexists. split; [apply recommend_songs_returns|].
  destruct (sample_loop_is_sample rnd (matching_songs mood activity)
              (min 5 (length (matching_songs mood activity))))
    as (Hlen & _ & Hin); [apply NoDup_matching_songs|lia|].
  split.
  - apply Forall_forall. intros song Hsong%Hin. by apply elem_of_matching_songs in Hsong as [? _].
  - intros Hne Hnil. rewrite Hnil in Hlen. cbn [length] in Hlen.
    destruct (matching_songs mood activity); [done|]. cbn [length] in Hlen. lia.
Qed.

Lemma two_songs_for_catalog_history p :
  Forall from_catalog (UserProfile.listening_history p) →
  UserProfile.listening_history p ≠ [] →
  ∃ playlist, create_personalized_playlist p = (Return playlist, p) ∧ length playlist = 2.
Proof.
  intros Hcat Hne.
  destruct (most_common_1_favorite (HistoryEvent.mood <$> UserProfile.listening_history p))
    as (f & n & _ & Hfav); [by destruct (UserProfile.listening_history p)|].
  eexists. split; [by apply create_personalized_playlist_run|].
  destruct Hfav as [Hin _].
  apply list_elem_of_fmap in Hin as (h & -> & Hh).
  pose proof (proj1 (Forall_forall _ _) Hcat h Hh) as Hfrom.
  apply list_elem_of_fmap in Hfrom as (song & -> & Hsong).
  pose proof (proj1 (Forall_forall _ _) catalog_moods_have_two_songs song Hsong) as H2.
  cbn beta in H2. change (HistoryEvent.mood (event_of_song song)) with (Song.mood song).
  rewrite take_ge by (rewrite H2; lia). exact H2.
Qed.

(** X16. After a recommendation that found songs, the My Playlist page
    finds a playlist: for a user whose history was recorded from catalog
    songs, the recommendation page followed by the My Playlist page leaves
    a playlist of two songs in the profile, a history still recorded from
    catalog songs, and the store written to the file. *)
Theorem playlist_after_recommendation (ws1 ws2 : widgets) (rnd rnd' : random_source)
    (fit_predict : kmeans) (w : world) (username : string) (profile : UserProfile.t) :
  session_username w = Some username →
  dict_get (users w) username = Some profile →
  Forall from_catalog (UserProfile.listening_history profile) →
  w_menu ws1 = GetRecommendations →
  w_button ws1 "Recommend Songs" = true →
  matching_songs (w_mood ws1) (w_activity ws1) ≠ [] →
  w_menu ws2 = MyPlaylist →
  ∃ w1 w2 profile2,
    main_app ws1 rnd fit_predict w = (Return tt, w1)
    ∧ main_app ws2 rnd' fit_predict w1 = (Return tt, w2)
    ∧ dict_get (users w2) username = Some profile2
    ∧ length (UserProfile.playlists profile2) = 2
    ∧ Forall from_catalog (UserProfile.listening_history profile2)
    ∧ UserProfile.listening_history profile `prefix_of` UserProfile.listening_history profile2
    ∧ persisted w2.
Proof.
  intros Hsession Hget Hcat Hm1 Hb1 Hmatch Hm2.
  destruct (recommend_songs_from_catalog rnd (w_mood ws1) (w_activity ws1))
    as (recs & Hrecs & Hin & Hne).
  specialize (Hne Hmatch).
  pose proof (main_app_get_recommendations ws1 rnd fit_predict w username profile recs
                Hsession Hget Hm1 Hb1 Hrecs) as Hrun1.
  destruct recs as [|song recs]; [done|]. cbn [py_bool] in Hrun1. cbv zeta in Hrun1.
  set (profile1 := UserProfile.set_listening_history
         (UserProfile.listening_history profile ++ (event_of_song <$> song :: recs)) profile)
    in *.
  assert (Hcat1 : Forall from_catalog (UserProfile.listening_history profile1)).
  { subst profile1. cbn [UserProfile.listening_history UserProfile.set_listening_history].
    apply Forall_app. split; [done|].
    apply Forall_fmap. eapply Forall_impl; [exact Hin|].
    intros s Hs. cbn. unfold from_catalog. apply list_elem_of_fmap. by exists s. }
  destruct (two_songs_for_catalog_history profile1 Hcat1) as (playlist & Hbuilt & Hlen).
  { subst profile1. cbn. by destruct (UserProfile.listening_history profile). }
  eexists _, _, (UserProfile.set_playlists playlist profile1).
  split; [exact Hrun1|]. split.
  { eapply main_app_my_playlist; [done| |done|exact Hbuilt].
    cbn [users]. by rewrite dict_get_set, decide_True. }
  destruct playlist as [|song1 playlist]; [done|]. cbn [py_bool users files].
  split; [by rewrite dict_get_set, decide_True|]. split; [done|]. split; [done|].
  split; [subst profile1; cbn; by apply prefix_app_r|]. apply lookup_insert_eq.
Qed.

Lemma playlist_after_recommendation_sample :
  session_username sample_world = Some "ann"
  ∧ Forall from_catalog [event_of_song stronger]
  ∧ matching_songs "motivational" "gym" ≠ []
  ∧ ∃ w1 w2 profile2,
      main_app (sample_widgets Login "" GetRecommendations) (λ _, 0) parity_kmeans sample_world
      = (Return tt, w1)
      ∧ main_app (sample_widgets Login "" MyPlaylist) (λ _, 0) parity_kmeans w1
        = (Return tt, w2)
      ∧ dict_get (users w2) "ann" = Some profile2
      ∧ length (UserProfile.playlists profile2) = 2.
Proof.
  assert (Hcat : Forall from_catalog [event_of_song stronger]).
  { constructor; [|constructor]. apply (bool_decide_unpack _). by vm_compute. }
  assert (Hmatch : matching_songs "motivational" "gym" ≠ []) by (by vm_compute).
  split; [reflexivity|]. split; [exact Hcat|]. split; [exact Hmatch|].
  destruct (playlist_after_recommendation
              (sample_widgets Login "" GetRecommendations) (sample_widgets Login "" MyPlaylist)
              (λ _, 0) (λ _, 0) parity_kmeans sample_world "ann"
              (UserProfile.mk "" "" [event_of_song stronger] [stronger] 2)
              eq_refl eq_refl Hcat eq_refl eq_refl Hmatch eq_refl)
    as (w1 & w2 & profile2 & H1 & H2 & H3 & H4 & _).
  exists w1, w2, profile2. repeat split; assumption.
Defined.
